(** * gradio_demo.py: the two request handlers of the MMAudio demo

    A shallow embedding of [video_to_audio] and [text_to_audio]: the
    handlers are programs in a state-and-exception monad over the process
    globals ([model], [net], [feature_utils], [output_dir]) and the file
    system; every call into a collaborator is recorded, in order, together
    with the exception it raised, if any.  The [mmaudio] library, [torch] and
    [torchaudio] are consumed through an interface ([Library]); the standard
    library pieces the handlers rely on ([pathlib], [strftime]) are modelled
    concretely.  [get_model] and sequences of requests are modelled on top
    of the same state. *)

From Stdlib Require Import ZArith String Ascii List Lia Bool QArith Qround.
From stdpp Require Import base option countable gmap strings list.
Import ListNotations.
Local Open Scope string_scope.
Local Open Scope list_scope.

(** ** Exceptions and results *)

Inductive Exn : Type :=
| IndexError
| FileExistsError
| FileNotFoundError
| NotADirectoryError
| External (name : string).

Inductive Result (A : Type) : Type :=
| Ok (a : A)
| Raise (e : Exn).
Arguments Ok {A} a.
Arguments Raise {A} e.

Definition raised {A} (r : Result A) : option Exn :=
  match r with
  | Ok _ => None
  | Raise e => Some e
  end.

(** ** pathlib *)

(** A pure path: whether it starts at the root, and its components. *)
Record Path : Type := { anchored : bool; parts : list string }.

Definition slash : ascii := "/"%char.

(** [s.split('/')] *)
Fixpoint split_slash (s : string) : list string :=
  match s with
  | EmptyString => [EmptyString]
  | String c s' =>
      if Ascii.eqb c slash then EmptyString :: split_slash s'
      else match split_slash s' with
           | h :: t => String c h :: t
           | [] => [String c EmptyString]
           end
  end.

Definition kept_component (c : string) : bool :=
  negb (String.eqb c "" || String.eqb c ".").

(** [Path(s)]: empty and '.' components are dropped. *)
Definition Path_of (s : string) : Path :=
  {| anchored := match s with
                 | String c _ => Ascii.eqb c slash
                 | EmptyString => false
                 end;
     parts := List.filter kept_component (split_slash s) |}.

(** [p / name] *)
Definition Path_div (p : Path) (name : string) : Path :=
  let q := Path_of name in
  if anchored q then q
  else {| anchored := anchored p; parts := parts p ++ parts q |}.

(** [p.parent] *)
Definition Path_parent (p : Path) : Path :=
  {| anchored := anchored p; parts := removelast (parts p) |}.

(** [p.name] *)
Definition Path_name (p : Path) : string := List.last (parts p) "".

(** A single component: no separator, and kept by [Path_of]. *)
Definition plain_name (s : string) : bool :=
  forallb (fun c => negb (Ascii.eqb c slash)) (list_ascii_of_string s) && kept_component s.

#[global] Instance Path_eq_dec : EqDecision Path.
Proof. solve_decision. Defined.

#[global] Instance Path_countable : Countable Path.
Proof.
  refine (inj_countable' (fun p => (anchored p, parts p))
                         (fun t => {| anchored := fst t; parts := snd t |}) _).
  intros []; reflexivity.
Defined.

(** ** datetime *)

(** [datetime.now()]: year 1..9999, month 1..12, day 1..31, hour 0..23,
    minute and second 0..59. *)
Record DateTime : Type := {
  year : nat; month : nat; day : nat;
  hour : nat; minute : nat; second : nat;
  microsecond : nat
}.

Definition digit (n : nat) : ascii := ascii_of_nat (48 + n mod 10).

Definition pad2 (n : nat) : string :=
  String (digit (n / 10)) (String (digit n) "").

Definition pad4 (n : nat) : string :=
  String (digit (n / 1000)) (String (digit (n / 100)) (pad2 n)).

(** One [strftime] directive; on the ranges of [DateTime] each field fills
    its width exactly. *)
Definition directive (d : ascii) (t : DateTime) : string :=
  if Ascii.eqb d "Y" then pad4 (year t)
  else if Ascii.eqb d "m" then pad2 (month t)
  else if Ascii.eqb d "d" then pad2 (day t)
  else if Ascii.eqb d "H" then pad2 (hour t)
  else if Ascii.eqb d "M" then pad2 (minute t)
  else if Ascii.eqb d "S" then pad2 (second t)
  else String "%" (String d "").

Fixpoint strftime (fmt : string) (t : DateTime) : string :=
  match fmt with
  | String c rest =>
      if Ascii.eqb c "%" then
        match rest with
        | String d rest' => directive d t ++ strftime rest' t
        | EmptyString => String c EmptyString
        end
      else String c (strftime rest t)
  | EmptyString => EmptyString
  end.

Definition is_digit (c : ascii) : bool :=
  let n := nat_of_ascii c in (48 <=? n)%nat && (n <=? 57)%nat.

(** The shape YYYYMMDD_HHMMSS: eight digits, an underscore, six digits. *)
Definition timestamp_shape (s : string) : bool :=
  match list_ascii_of_string s with
  | [y1; y2; y3; y4; m1; m2; d1; d2; u; h1; h2; n1; n2; s1; s2] =>
      forallb is_digit [y1; y2; y3; y4; m1; m2; d1; d2] &&
      Ascii.eqb u "_" &&
      forallb is_digit [h1; h2; n1; n2; s1; s2]
  | _ => false
  end.


(** ** The data of the mmaudio library

    The tensors, the network weights and the other values the handlers only
    pass along are kept abstract. *)

Class Carrier : Type := {
  Float : Type;          (* a Python float *)
  Frames : Type;         (* a tensor of video frames *)
  Waveform : Type;       (* an audio tensor *)
  Weights : Type;        (* the parameters of the network *)
  FeaturesUtils : Type;  (* the feature-extraction network *)
  RngState : Type;       (* the state of a torch.Generator *)
  SeqParams : Type;      (* the fields of SequenceConfig the handlers never touch *)
  VideoMeta : Type;      (* the fields of VideoInfo the handlers never touch *)
  Blob : Type            (* the content of a file *)
}.

Inductive Device : Type := cpu | cuda | mps.

Inductive DType : Type := bfloat16 | float32.

(** [FlowMatching(min_sigma=..., inference_mode=..., num_steps=...)] *)
Record FlowMatching : Type := {
  min_sigma : Z;
  inference_mode : string;
  num_steps : Z
}.

Section Data.
Context `{Carrier}.

Record SequenceConfig : Type := {
  duration : Float;
  sampling_rate : Z;
  seq_params : SeqParams
}.

(** [seq_cfg.duration = d] *)
Definition set_duration (c : SequenceConfig) (d : Float) : SequenceConfig :=
  {| duration := d; sampling_rate := sampling_rate c; seq_params := seq_params c |}.

(** [ModelConfig]: the fields read at start-up and the sequence
    configuration; the global [seq_cfg] is the very object [model.seq_cfg]. *)
Record ModelConfig : Type := {
  model_name : string;
  model_path : string;
  vae_path : string;
  synchformer_ckpt : string;
  bigvgan_16k_path : string;
  mode : string;
  seq_cfg : SequenceConfig
}.

Definition set_seq_cfg (m : ModelConfig) (c : SequenceConfig) : ModelConfig :=
  {| model_name := model_name m; model_path := model_path m; vae_path := vae_path m;
     synchformer_ckpt := synchformer_ckpt m; bigvgan_16k_path := bigvgan_16k_path m;
     mode := mode m; seq_cfg := c |}.

(** The network: its weights and the sequence lengths it currently runs with. *)
Record MMAudio : Type := {
  weights : Weights;
  latent_len : Z;
  clip_len : Z;
  sync_len : Z
}.

(** Modelled from the spec: [MMAudio.update_seq_lengths] is not in this
    file; it writes the three sequence lengths into the network's runtime
    state. *)
Definition update_seq_lengths (n : MMAudio) (l c s : Z) : MMAudio :=
  {| weights := weights n; latent_len := l; clip_len := c; sync_len := s |}.

Record VideoInfo : Type := {
  clip_frames : Frames;
  sync_frames : Frames;
  duration_sec : Float;
  video_meta : VideoMeta
}.

Record Generator : Type := {
  gen_device : Device;
  gen_state : RngState
}.

(** The arguments of one [generate] call. *)
Record GenArgs : Type := {
  clip_video : option (list Frames);
  sync_video : option (list Frames);
  text : list string;
  negative_text : list string;
  arg_feature_utils : FeaturesUtils;
  arg_net : MMAudio;
  fm : FlowMatching;
  rng : Generator;
  cfg_strength : Float
}.

(** ** The file system *)

Inductive Node : Type :=
| Dir
| File (b : Blob).

End Data.

Abbreviation FS := (gmap Path Node).

Section FileSystem.
Context `{Carrier}.

(** The root of a path (the working directory, or '/') is always there. *)
Definition exists_ (fs : FS) (p : Path) : bool :=
  match parts p with
  | [] => true
  | _ => match fs !! p with Some _ => true | None => false end
  end.

(** [p.is_dir()] *)
Definition is_dir (fs : FS) (p : Path) : bool :=
  match parts p with
  | [] => true
  | _ => match fs !! p with Some Dir => true | _ => false end
  end.

(** [os.mkdir(p)] *)
Definition os_mkdir (p : Path) (fs : FS) : Result FS :=
  if exists_ fs p then Raise FileExistsError
  else if is_dir fs (Path_parent p) then Ok (<[p := Dir]> fs)
  else if exists_ fs (Path_parent p) then Raise NotADirectoryError
  else Raise FileNotFoundError.

(** [p.mkdir(parents=False, exist_ok=exist_ok)]: an error other than a
    missing parent is forgiven when [exist_ok] holds and [p] is a directory. *)
Definition mkdir_here (p : Path) (exist_ok : bool) (fs : FS) : Result FS :=
  match os_mkdir p fs with
  | Ok fs' => Ok fs'
  | Raise FileNotFoundError => Raise FileNotFoundError
  | Raise e => if exist_ok && is_dir fs p then Ok fs else Raise e
  end.

(** [Path.mkdir(parents, exist_ok)] on the path with the components [rp],
    innermost first: when the parent is missing and [parents] holds, the
    parent is made with [parents=True, exist_ok=True] and the directory is
    tried again without [parents]. *)
Fixpoint mkdir_from (anch : bool) (rp : list string) (parents exist_ok : bool)
    (fs : FS) : Result FS :=
  let p := {| anchored := anch; parts := rev rp |} in
  match os_mkdir p fs with
  | Ok fs' => Ok fs'
  | Raise FileNotFoundError =>
      match rp with
      | [] => Raise FileNotFoundError
      | _ :: rp' =>
          if parents then
            match mkdir_from anch rp' true true fs with
            | Ok fs1 => mkdir_here p exist_ok fs1
            | Raise e => Raise e
            end
          else Raise FileNotFoundError
      end
  | Raise e => if exist_ok && is_dir fs p then Ok fs else Raise e
  end.

Definition Path_mkdir (p : Path) (parents exist_ok : bool) (fs : FS) : Result FS :=
  mkdir_from (anchored p) (rev (parts p)) parents exist_ok fs.

End FileSystem.

(** ** The collaborators

    What [torch], [torchaudio] and the [mmaudio] package provide, and the
    environment of the process: which accelerators are present, the entropy
    source and the clocks (the n-th reading of each). *)

Class Library `{Carrier} : Type := {
  cuda_is_available : bool;
  mps_is_available : bool;
  entropy : nat -> Z;
  time_time : nat -> Float;
  datetime_now : nat -> DateTime;
  (* torch.Generator *)
  initial_state : Device -> RngState;
  seed_state : Device -> Z -> RngState;
  (* tensors *)
  frames_to : Device -> DType -> Frames -> Frames;
  tensor_float : Waveform -> Waveform;
  tensor_cpu : Waveform -> Waveform;
  (* SequenceConfig properties *)
  latent_seq_len : SequenceConfig -> Z;
  clip_seq_len : SequenceConfig -> Z;
  sync_seq_len : SequenceConfig -> Z;
  (* mmaudio.eval_utils *)
  load_video : FS -> string -> Float -> Result VideoInfo;
  generate : GenArgs -> Result (list Waveform);
  make_video : VideoInfo -> Path -> Waveform -> Z -> FS -> Result unit * FS;
  (* torchaudio *)
  torchaudio_save : Path -> list Waveform -> Z -> FS -> Result unit * FS;
  (* formatting of the elapsed time in the log line *)
  float_sub : Float -> Float -> Float;
  format_2f : Float -> string
}.

Section Pipeline.
Context `{Library}.

(** ** Process start: lines 22-39 of the module *)

Definition device : Device :=
  if cuda_is_available then cuda
  else if mps_is_available then mps
  else cpu.

Definition dtype : DType := bfloat16.

(** [output_dir = Path('./output/gradio')] *)
Definition configured_output_dir : Path := Path_of "./output/gradio".

(** ** The state of the process *)

Record World : Type := {
  model : ModelConfig;
  net : MMAudio;
  feature_utils : FeaturesUtils;
  output_dir : Path;
  fs : FS;
  entropy_reads : nat;
  time_reads : nat;
  now_reads : nat
}.

Definition with_model (w : World) (m : ModelConfig) : World :=
  {| model := m; net := net w; feature_utils := feature_utils w;
     output_dir := output_dir w; fs := fs w; entropy_reads := entropy_reads w;
     time_reads := time_reads w; now_reads := now_reads w |}.

Definition with_net (w : World) (n : MMAudio) : World :=
  {| model := model w; net := n; feature_utils := feature_utils w;
     output_dir := output_dir w; fs := fs w; entropy_reads := entropy_reads w;
     time_reads := time_reads w; now_reads := now_reads w |}.

Definition with_fs (w : World) (f : FS) : World :=
  {| model := model w; net := net w; feature_utils := feature_utils w;
     output_dir := output_dir w; fs := f; entropy_reads := entropy_reads w;
     time_reads := time_reads w; now_reads := now_reads w |}.

Definition next_entropy (w : World) : World :=
  {| model := model w; net := net w; feature_utils := feature_utils w;
     output_dir := output_dir w; fs := fs w; entropy_reads := S (entropy_reads w);
     time_reads := time_reads w; now_reads := now_reads w |}.

Definition next_time (w : World) : World :=
  {| model := model w; net := net w; feature_utils := feature_utils w;
     output_dir := output_dir w; fs := fs w; entropy_reads := entropy_reads w;
     time_reads := S (time_reads w); now_reads := now_reads w |}.

Definition next_now (w : World) : World :=
  {| model := model w; net := net w; feature_utils := feature_utils w;
     output_dir := output_dir w; fs := fs w; entropy_reads := entropy_reads w;
     time_reads := time_reads w; now_reads := S (now_reads w) |}.

(** ** What a handler does, step by step *)

Inductive Action : Type :=
| NewGenerator (d : Device)
| ManualSeed (seed : Z)
| EntropySeed (drawn : Z)
| LoadVideo (video : string) (requested : Float)
| AssignDuration (d : Float)
| UpdateSeqLengths (l c s : Z)
| ReadTime
| Generate (a : GenArgs)
| LogInfo (msg : string)
| ReadNow
| Mkdir (p : Path) (parents exist_ok : bool)
| MakeVideo (v : VideoInfo) (p : Path) (audio : Waveform) (rate : Z)
| SaveAudio (p : Path) (t : list Waveform) (rate : Z).

(** A step and the exception it raised, if any. *)
Definition Event : Type := (Action * option Exn)%type.

Record Run (A : Type) : Type := {
  result : Result A;
  final : World;
  events : list Event
}.
#[global] Arguments result {A} r.
#[global] Arguments final {A} r.
#[global] Arguments events {A} r.

Definition M (A : Type) : Type := World -> Run A.

#[local] Instance M_ret : MRet M := fun A a w =>
  {| result := Ok a; final := w; events := [] |}.

(** Sequencing: an exception ends the computation where it is raised. *)
#[local] Instance M_bind : MBind M := fun A B k m w =>
  match m w with
  | {| result := Ok a; final := w1; events := e1 |} =>
      match k a w1 with
      | {| result := r; final := w2; events := e2 |} =>
          {| result := r; final := w2; events := e1 ++ e2 |}
      end
  | {| result := Raise e; final := w1; events := e1 |} =>
      {| result := Raise e; final := w1; events := e1 |}
  end.

Definition step {A} (a : Action) (r : Result A) (w : World) : Run A :=
  {| result := r; final := w; events := [(a, raised r)] |}.

(** Reading a global. *)
Definition global {A} (f : World -> A) : M A := fun w =>
  {| result := Ok (f w); final := w; events := [] |}.

(** [torch.Generator(device=d)] *)
Definition torch_Generator (d : Device) : M Generator := fun w =>
  step (NewGenerator d) (Ok {| gen_device := d; gen_state := initial_state d |}) w.

(** The seeds [Generator.manual_seed] takes, from -2**63 to 2**64 - 1:
    torch raises for any other, and a seed of 2**64 or more can reach the
    handlers, the seed field of the interface having no maximum. *)
Definition seed_in_range (seed : Z) : bool :=
  (- 2 ^ 63 <=? seed)%Z && (seed <? 2 ^ 64)%Z.

(** [g.manual_seed(seed)]: a [ValueError] for a seed out of range. *)
Definition manual_seed (g : Generator) (seed : Z) : M Generator := fun w =>
  step (ManualSeed seed)
       (if seed_in_range seed
        then Ok {| gen_device := gen_device g;
                   gen_state := seed_state (gen_device g) seed |}
        else Raise (External "ValueError")) w.

(** [g.seed()]: a number taken from the entropy source seeds the generator. *)
Definition entropy_seed (g : Generator) : M Generator := fun w =>
  let drawn := entropy (entropy_reads w) in
  step (EntropySeed drawn)
       (Ok {| gen_device := gen_device g; gen_state := seed_state (gen_device g) drawn |})
       (next_entropy w).

Definition do_load_video (video : string) (requested : Float) : M VideoInfo := fun w =>
  step (LoadVideo video requested) (load_video (fs w) video requested) w.

(** [seq_cfg.duration = d], on the object shared with [model]. *)
Definition assign_duration (d : Float) : M unit := fun w =>
  step (AssignDuration d) (Ok tt)
       (with_model w (set_seq_cfg (model w) (set_duration (seq_cfg (model w)) d))).

(** [net.update_seq_lengths(l, c, s)] *)
Definition net_update_seq_lengths (l c s : Z) : M unit := fun w =>
  step (UpdateSeqLengths l c s) (Ok tt) (with_net w (update_seq_lengths (net w) l c s)).

(** [time.time()] *)
Definition do_time : M Float := fun w =>
  step ReadTime (Ok (time_time (time_reads w))) (next_time w).

Definition do_generate (a : GenArgs) : M (list Waveform) := fun w =>
  step (Generate a) (generate a) w.

(** [log.info(msg)] *)
Definition log_info (msg : string) : M unit := fun w =>
  step (LogInfo msg) (Ok tt) w.

(** [t[0]] on a batch *)
Definition index0 {A} (t : list A) : M A := fun w =>
  {| result := match t with a :: _ => Ok a | [] => Raise IndexError end;
     final := w; events := [] |}.

(** [datetime.now()] *)
Definition do_now : M DateTime := fun w =>
  step ReadNow (Ok (datetime_now (now_reads w))) (next_now w).

(** [p.mkdir(exist_ok=..., parents=...)] *)
Definition do_mkdir (p : Path) (parents exist_ok : bool) : M unit := fun w =>
  match Path_mkdir p parents exist_ok (fs w) with
  | Ok fs' => step (Mkdir p parents exist_ok) (Ok tt) (with_fs w fs')
  | Raise e => step (Mkdir p parents exist_ok) (Raise e) w
  end.

Definition do_make_video (v : VideoInfo) (p : Path) (audio : Waveform) (rate : Z)
    : M unit := fun w =>
  let r := make_video v p audio rate (fs w) in
  step (MakeVideo v p audio rate) (fst r) (with_fs w (snd r)).

Definition do_save (p : Path) (t : list Waveform) (rate : Z) : M unit := fun w =>
  let r := torchaudio_save p t rate (fs w) in
  step (SaveAudio p t rate) (fst r) (with_fs w (snd r)).

(** ** The handlers *)

Definition video_to_audio (video prompt negative_prompt : string) (seed num_steps : Z)
    (cfg_strength duration : Float) : M Path :=
  rng ← torch_Generator device;
  rng ← (if (0 <=? seed)%Z then manual_seed rng seed else entropy_seed rng);
  let fm := {| min_sigma := 0; inference_mode := "euler"; num_steps := num_steps |} in
  video_info ← do_load_video video duration;
  let clip_frames := clip_frames video_info in
  let sync_frames := sync_frames video_info in
  let duration := duration_sec video_info in
  let clip_frames := [frames_to device dtype clip_frames] in
  let sync_frames := [frames_to device dtype sync_frames] in
  assign_duration duration;;
  cfg ← global (fun w => seq_cfg (model w));
  net_update_seq_lengths (latent_seq_len cfg) (clip_seq_len cfg) (sync_seq_len cfg);;
  start_time ← do_time;
  fu ← global feature_utils;
  n ← global net;
  audios ← do_generate {| clip_video := Some clip_frames;
                          sync_video := Some sync_frames;
                          text := [prompt];
                          negative_text := [negative_prompt];
                          arg_feature_utils := fu;
                          arg_net := n;
                          fm := fm;
                          rng := rng;
                          cfg_strength := cfg_strength |};
  t ← do_time;
  log_info ("Generate işlem süresi: " ++ format_2f (float_sub t start_time) ++ " saniye");;
  audio ← index0 (map tensor_cpu (map tensor_float audios));
  now ← do_now;
  let current_time_string := strftime "%Y%m%d_%H%M%S" now in
  dir ← global output_dir;
  do_mkdir dir true true;;
  let video_save_path := Path_div dir (current_time_string ++ ".mp4") in
  cfg ← global (fun w => seq_cfg (model w));
  do_make_video video_info video_save_path audio (sampling_rate cfg);;
  mret video_save_path.

Definition text_to_audio (prompt negative_prompt : string) (seed num_steps : Z)
    (cfg_strength duration : Float) : M Path :=
  rng ← torch_Generator device;
  rng ← (if (0 <=? seed)%Z then manual_seed rng seed else entropy_seed rng);
  let fm := {| min_sigma := 0; inference_mode := "euler"; num_steps := num_steps |} in
  let clip_frames : option (list Frames) := None in
  let sync_frames : option (list Frames) := None in
  assign_duration duration;;
  cfg ← global (fun w => seq_cfg (model w));
  net_update_seq_lengths (latent_seq_len cfg) (clip_seq_len cfg) (sync_seq_len cfg);;
  start_time ← do_time;
  fu ← global feature_utils;
  n ← global net;
  audios ← do_generate {| clip_video := clip_frames;
                          sync_video := sync_frames;
                          text := [prompt];
                          negative_text := [negative_prompt];
                          arg_feature_utils := fu;
                          arg_net := n;
                          fm := fm;
                          rng := rng;
                          cfg_strength := cfg_strength |};
  t ← do_time;
  log_info ("Generate işlem süresi: " ++ format_2f (float_sub t start_time) ++ " saniye");;
  audio ← index0 (map tensor_cpu (map tensor_float audios));
  now ← do_now;
  let current_time_string := strftime "%Y%m%d_%H%M%S" now in
  dir ← global output_dir;
  do_mkdir dir true true;;
  let audio_save_path := Path_div dir (current_time_string ++ ".flac") in
  cfg ← global (fun w => seq_cfg (model w));
  do_save audio_save_path [audio] (sampling_rate cfg);;
  mret audio_save_path.

End Pipeline.

(** ** Reading a run *)

Section Observations.
Context `{Library}.

Definition loads_video (e : Event) : bool :=
  match fst e with
  | LoadVideo _ _ => true
  | _ => false
  end.

Definition generate_call (e : Event) : option GenArgs :=
  match fst e with
  | Generate a => Some a
  | _ => None
  end.

(** The arguments of the [generate] calls of a run, in order. *)
Definition generate_calls (tr : list Event) : list GenArgs := omap generate_call tr.

(** What those calls produced. *)
Definition produced (tr : list Event) : list (Result (list Waveform)) :=
  map generate (generate_calls tr).

(** A writer call: where it writes and the audio it is given. *)
Definition write_call (e : Event) : option (Path * list Waveform) :=
  match fst e with
  | MakeVideo _ p audio _ => Some (p, [audio])
  | SaveAudio p t _ => Some (p, t)
  | _ => None
  end.

Definition writes (tr : list Event) : list Path := omap (fun e => fst <$> write_call e) tr.

Definition written_audio (tr : list Event) : list (list Waveform) :=
  omap (fun e => snd <$> write_call e) tr.

(** The writer calls that returned normally. *)
Definition artifacts (tr : list Event) : list Path :=
  omap (fun e => match snd e with
                 | None => fst <$> write_call e
                 | Some _ => None
                 end) tr.

(** The steps that touch the output storage, in order. *)
Definition touches_storage (e : Event) : bool :=
  match fst e with
  | Mkdir _ _ _ | MakeVideo _ _ _ _ | SaveAudio _ _ _ => true
  | _ => false
  end.

Definition storage_steps (tr : list Event) : list Event := List.filter touches_storage tr.

(** The exceptions raised by the steps of a run. *)
Definition failures (tr : list Event) : list Exn := omap snd tr.

(** The sequence configuration in force at a [generate] call: the duration
    last assigned in the request, the lengths pushed into the network since
    that assignment, and the arguments of the call. *)
Record Configured : Type := {
  assigned : option Float;
  updated : option (Z * Z * Z);
  call : GenArgs
}.

Fixpoint generate_contexts (a : option Float) (u : option (Z * Z * Z))
    (tr : list Event) : list Configured :=
  match tr with
  | [] => []
  | (AssignDuration d, _) :: tr' => generate_contexts (Some d) None tr'
  | (UpdateSeqLengths l c s, _) :: tr' => generate_contexts a (Some (l, c, s)) tr'
  | (Generate g, _) :: tr' =>
      {| assigned := a; updated := u; call := g |} :: generate_contexts a u tr'
  | _ :: tr' => generate_contexts a u tr'
  end.

(** The lengths the sequence configuration yields once its duration is [d]. *)
Definition lengths_for (c : SequenceConfig) (d : Float) : Z * Z * Z :=
  let c' := set_duration c d in
  (latent_seq_len c', clip_seq_len c', sync_seq_len c').

(** [generate] runs on a configuration made in this request for duration
    [d]: the duration assigned last is [d], the lengths pushed into the
    network since are those of the sequence configuration with duration
    [d] (its other fields as in [w]), and the network given to [generate]
    has these lengths and the weights of [w]. *)
Definition fresh (w : World) (d : Float) (c : Configured) : Prop :=
  exists cfg,
    duration cfg = d /\
    sampling_rate cfg = sampling_rate (seq_cfg (model w)) /\
    seq_params cfg = seq_params (seq_cfg (model w)) /\
    assigned c = Some d /\
    updated c = Some (latent_seq_len cfg, clip_seq_len cfg, sync_seq_len cfg) /\
    latent_len (arg_net (call c)) = latent_seq_len cfg /\
    clip_len (arg_net (call c)) = clip_seq_len cfg /\
    sync_len (arg_net (call c)) = sync_seq_len cfg /\
    weights (arg_net (call c)) = weights (net w).

(** Seeding does not raise: a negative seed is replaced by a word of
    entropy, another one must be in the range of [manual_seed]. *)
Definition seed_accepted (seed : Z) : bool := (seed <? 0)%Z || seed_in_range seed.

(** What the seeding step of a request raises. *)
Definition seeding_raised (seed : Z) : option Exn :=
  if seed_accepted seed then None else Some (External "ValueError").

(** The generator a request builds from its seed. *)
Definition request_rng (w : World) (seed : Z) : Generator :=
  {| gen_device := device;
     gen_state := seed_state device
                    (if (0 <=? seed)%Z then seed else entropy (entropy_reads w)) |}.

Definition seeding (w : World) (seed : Z) : Action :=
  if (0 <=? seed)%Z then ManualSeed seed else EntropySeed (entropy (entropy_reads w)).

(** The arguments [text_to_audio] hands to [generate]. *)
Definition text_args (w : World) (prompt negative_prompt : string) (seed steps : Z)
    (strength d : Float) : GenArgs :=
  let lens := lengths_for (seq_cfg (model w)) d in
  {| clip_video := None;
     sync_video := None;
     text := [prompt];
     negative_text := [negative_prompt];
     arg_feature_utils := feature_utils w;
     arg_net := update_seq_lengths (net w) lens.1.1 lens.1.2 lens.2;
     fm := {| min_sigma := 0; inference_mode := "euler"; num_steps := steps |};
     rng := request_rng w seed;
     cfg_strength := strength |}.

(** The arguments [video_to_audio] hands to [generate] once the video is
    decoded to [v]. *)
Definition video_args (w : World) (v : VideoInfo) (prompt negative_prompt : string)
    (seed steps : Z) (strength : Float) : GenArgs :=
  let lens := lengths_for (seq_cfg (model w)) (duration_sec v) in
  {| clip_video := Some [frames_to device dtype (clip_frames v)];
     sync_video := Some [frames_to device dtype (sync_frames v)];
     text := [prompt];
     negative_text := [negative_prompt];
     arg_feature_utils := feature_utils w;
     arg_net := update_seq_lengths (net w) lens.1.1 lens.1.2 lens.2;
     fm := {| min_sigma := 0; inference_mode := "euler"; num_steps := steps |};
     rng := request_rng w seed;
     cfg_strength := strength |}.

(** The durations assigned to the sequence configuration during a run. *)
Definition assigned_durations (tr : list Event) : list Float :=
  omap (fun e => match fst e with
                 | AssignDuration d => Some d
                 | _ => None
                 end) tr.

(** Two states of the process with the same loaded model: the weights, the
    feature network and the constant part of the sequence configuration. *)
Definition same_model (w1 w2 : World) : Prop :=
  weights (net w1) = weights (net w2) /\
  feature_utils w1 = feature_utils w2 /\
  sampling_rate (seq_cfg (model w1)) = sampling_rate (seq_cfg (model w2)) /\
  seq_params (seq_cfg (model w1)) = seq_params (seq_cfg (model w2)).

(** [w'] differs from [w] in shared model state at most by the duration of
    the sequence configuration and the lengths held by the network. *)
Definition only_sequence_changed (w w' : World) : Prop :=
  (exists d, model w' = set_seq_cfg (model w) (set_duration (seq_cfg (model w)) d)) /\
  (exists l c s, net w' = update_seq_lengths (net w) l c s) /\
  weights (net w') = weights (net w) /\
  feature_utils w' = feature_utils w /\
  output_dir w' = output_dir w.

(** What a writer call does to the file system it runs on. *)
Definition run_writer (a : Action) (f : FS) : option (Result unit * FS) :=
  match a with
  | MakeVideo v p audio rate => Some (make_video v p audio rate f)
  | SaveAudio p t rate => Some (torchaudio_save p t rate f)
  | _ => None
  end.

(** The run [r], started in [w], left one artifact at [p], a file called
    [name] directly under the output directory: the directory was made
    first, with [parents=True] and [exist_ok=True], then a single writer
    call was given [p], ran on the file system the directory was made in,
    returned normally, and what it left is the file system at the end of
    the run.  Making the directory left a directory there; it changed
    nothing when the directory was there already, and made the parent too
    when both were missing. *)
Definition materialized (w : World) (r : Run Path) (p : Path) (name : string) : Prop :=
  p = Path_div (output_dir w) name /\
  Path_parent p = output_dir w /\
  Path_name p = name /\
  writes (events r) = [p] /\
  artifacts (events r) = [p] /\
  (exists wr fs1,
     Path_mkdir (output_dir w) true true (fs w) = Ok fs1 /\
     storage_steps (events r) = [(Mkdir (output_dir w) true true, None); (wr, None)] /\
     fst <$> write_call (wr, None) = Some p /\
     run_writer wr fs1 = Some (Ok tt, fs (final r)) /\
     is_dir fs1 (output_dir w) = true /\
     (is_dir (fs w) (output_dir w) = true -> fs1 = fs w) /\
     (exists_ (fs w) (output_dir w) = false ->
      exists_ (fs w) (Path_parent (output_dir w)) = false ->
      is_dir (fs w) (Path_parent (Path_parent (output_dir w))) = true ->
      fs1 = <[output_dir w := Dir]> (<[Path_parent (output_dir w) := Dir]> (fs w)))) /\
  (output_dir w = configured_output_dir ->
   p = {| anchored := false; parts := ["output"; "gradio"; name] |}).

(** What the run [r], started in [w], makes of the batch [generate]
    returns on the arguments [a]: element 0 of the batch, as floats on the
    CPU, is the audio of the one writer call of the run, unless making the
    output directory raises; of an empty batch element 0 is an
    [IndexError]; an exception of [generate] is the result of the run. *)
Definition generation_outcome (w : World) (r : Run Path) (a : GenArgs) : Prop :=
  match generate a with
  | Ok (x :: _) =>
      match Path_mkdir (output_dir w) true true (fs w) with
      | Ok _ => written_audio (events r) = [[tensor_cpu (tensor_float x)]]
      | Raise e => result r = Raise e /\ written_audio (events r) = []
      end
  | Ok [] => result r = Raise IndexError /\ written_audio (events r) = []
  | Raise e => result r = Raise e /\ written_audio (events r) = []
  end.

(** Modelled from the spec: [load_video] is not in this file; given a
    video shorter than the requested duration, it resolves the duration to
    the video's actual length. *)
Definition clips_to_source (length_of : FS -> string -> Float)
    (shorter : Float -> Float -> Prop) : Prop :=
  forall f video requested v,
    load_video f video requested = Ok v ->
    shorter (length_of f video) requested ->
    duration_sec v = length_of f video.

(** Modelled from the spec: [generate] is not in this file; it returns one
    waveform per prompt of the batch. *)
Definition one_waveform_per_prompt : Prop :=
  forall a audios, generate a = Ok audios -> length audios = length (text a).

End Observations.

(** ** A small instance of the interface, to run the handlers on

    Durations are rationals, tensors are lists of integers, a file holds a
    list of integers, and the generator state is the seed itself. *)

Module Demo.

#[export] Instance carrier : Carrier := {|
  Float := Q;
  Frames := list Z;
  Waveform := list Z;
  Weights := Z;
  FeaturesUtils := Z;
  RngState := Z;
  SeqParams := Z;
  VideoMeta := string;
  Blob := list Z
|}.

(** A file of n samples decodes to a video of n seconds, clipped to the
    requested duration; anything else is a decode error. *)
Definition demo_load_video (fs : FS) (video : string) (requested : Q) : Result VideoInfo :=
  match fs !! Path_of video with
  | Some (File b) =>
      let len := inject_Z (Z.of_nat (length b)) in
      Ok {| clip_frames := b; sync_frames := b;
            duration_sec := if Qle_bool requested len then requested else len;
            video_meta := video |}
  | _ => Raise (External "DecodeError")
  end.

(** One waveform per prompt, made of the seed, the step count and the
    latent length; a negative step count is an out-of-resource failure. *)
Definition demo_generate (a : GenArgs) : Result (list (list Z)) :=
  if (num_steps (fm a) <? 0)%Z then Raise (External "OutOfMemoryError")
  else Ok (map (fun _ => [gen_state (rng a); num_steps (fm a); latent_len (arg_net a)])
               (text a)).

Definition demo_write (p : Path) (b : list Z) (fs : FS) : Result unit * FS :=
  if is_dir fs (Path_parent p) then (Ok tt, <[p := File b]> fs)
  else (Raise FileNotFoundError, fs).

#[export] Instance library : Library := {|
  cuda_is_available := false;
  mps_is_available := false;
  entropy := fun n => (1000 + Z.of_nat n)%Z;
  time_time := fun n => inject_Z (Z.of_nat n);
  datetime_now := fun n =>
    {| year := 2026; month := 11; day := 3; hour := 9; minute := 5; second := 7 + n;
       microsecond := 0 |};
  initial_state := fun _ => 0%Z;
  seed_state := fun _ s => s;
  frames_to := fun _ _ f => f;
  tensor_float := fun a => a;
  tensor_cpu := fun a => a;
  latent_seq_len := fun c => (Qfloor (duration c) * sampling_rate c)%Z;
  clip_seq_len := fun c => (Qfloor (duration c) * 8)%Z;
  sync_seq_len := fun c => (Qfloor (duration c) * 25)%Z;
  load_video := demo_load_video;
  generate := demo_generate;
  make_video := fun v p audio rate fs => demo_write p audio fs;
  torchaudio_save := fun p t rate fs => demo_write p (concat t) fs;
  float_sub := Qminus;
  format_2f := fun _ => "0.00"
|}.

Definition world0 : World :=
  {| model := {| model_name := "large_44k_v2"; model_path := "weights/mmaudio_large_44k_v2.pth";
                 vae_path := "ext_weights/v1-44.pth";
                 synchformer_ckpt := "ext_weights/synchformer_state_dict.pth";
                 bigvgan_16k_path := ""; mode := "44k";
                 seq_cfg := {| duration := 8%Q; sampling_rate := 44100; seq_params := 0%Z |} |};
     net := {| weights := 7%Z; latent_len := 345; clip_len := 64; sync_len := 192 |};
     feature_utils := 3%Z;
     output_dir := configured_output_dir;
     fs := {[ Path_of "clip.mp4" := File [1; 2; 3]%Z ]};
     entropy_reads := 0; time_reads := 0; now_reads := 0 |}.

(** The same process later on: another duration was configured by an
    earlier request, the output directory exists, the clocks and the
    entropy source have moved. *)
Definition world1 : World :=
  {| model := {| model_name := "large_44k_v2"; model_path := "weights/mmaudio_large_44k_v2.pth";
                 vae_path := "ext_weights/v1-44.pth";
                 synchformer_ckpt := "ext_weights/synchformer_state_dict.pth";
                 bigvgan_16k_path := ""; mode := "44k";
                 seq_cfg := {| duration := 3%Q; sampling_rate := 44100; seq_params := 0%Z |} |};
     net := {| weights := 7%Z; latent_len := 132300; clip_len := 24; sync_len := 75 |};
     feature_utils := 3%Z;
     output_dir := configured_output_dir;
     fs := {[ Path_of "clip.mp4" := File [1; 2; 3]%Z;
              Path_of "output" := Dir;
              Path_of "output/gradio" := Dir ]};
     entropy_reads := 4; time_reads := 6; now_reads := 3 |}.

(** The length of a stored video, in seconds. *)
Definition length_of (fs : FS) (video : string) : Q :=
  match fs !! Path_of video with
  | Some (File b) => inject_Z (Z.of_nat (length b))
  | _ => 0%Q
  end.

End Demo.


(** ** Calls of the handlers, one after another *)

Section Session.
Context `{Library}.

(** A submitted form of one of the two tabs, with the arguments of its
    handler in the order of the tab's inputs. *)
Inductive Request : Type :=
| VideoToAudio (video prompt negative_prompt : string) (seed num_steps : Z)
    (cfg_strength duration : Float)
| TextToAudio (prompt negative_prompt : string) (seed num_steps : Z)
    (cfg_strength duration : Float).

Definition handle (r : Request) : M Path :=
  match r with
  | VideoToAudio video prompt negative_prompt seed num_steps cfg_strength duration =>
      video_to_audio video prompt negative_prompt seed num_steps cfg_strength duration
  | TextToAudio prompt negative_prompt seed num_steps cfg_strength duration =>
      text_to_audio prompt negative_prompt seed num_steps cfg_strength duration
  end.

Definition request_seed (r : Request) : Z :=
  match r with
  | VideoToAudio _ _ _ seed _ _ _ => seed
  | TextToAudio _ _ seed _ _ _ => seed
  end.

(** The extension of the artifact a request makes. *)
Definition extension (r : Request) : string :=
  match r with
  | VideoToAudio _ _ _ _ _ _ _ => ".mp4"
  | TextToAudio _ _ _ _ _ _ => ".flac"
  end.

(** The state of the process after the requests [rs], handled in order,
    whether they succeeded or not. *)
Fixpoint after (rs : list Request) (w : World) : World :=
  match rs with
  | [] => w
  | r :: rs' => after rs' (final (handle r w))
  end.

(** The runs of the requests [rs], handled in order. *)
Fixpoint serve (rs : list Request) (w : World) : list (Run Path) :=
  match rs with
  | [] => []
  | r :: rs' => handle r w :: serve rs' (final (handle r w))
  end.

(** The requests that ask for a random seed. *)
Definition random_seeds (rs : list Request) : nat :=
  length (List.filter (fun r => (request_seed r <? 0)%Z) rs).

(** The network runs with the lengths of the current sequence configuration. *)
Definition in_step (w : World) : Prop :=
  latent_len (net w) = latent_seq_len (seq_cfg (model w)) /\
  clip_len (net w) = clip_seq_len (seq_cfg (model w)) /\
  sync_len (net w) = sync_seq_len (seq_cfg (model w)).

(** Everything of the shared state that is set up at process start and is
    not a sequence length: the weights, the feature network, the output
    directory, and the model configuration but for the duration. *)
Definition same_setup (w w' : World) : Prop :=
  weights (net w') = weights (net w) /\
  feature_utils w' = feature_utils w /\
  output_dir w' = output_dir w /\
  forall d, set_seq_cfg (model w') (set_duration (seq_cfg (model w')) d) =
            set_seq_cfg (model w) (set_duration (seq_cfg (model w)) d).

(** The lines logged during a run. *)
Definition log_lines (tr : list Event) : list string :=
  omap (fun e => match fst e with
                 | LogInfo msg => Some msg
                 | _ => None
                 end) tr.

End Session.

(** A clock reading without its microseconds. *)
Definition to_second (t : DateTime) : DateTime :=
  {| year := year t; month := month t; day := day t;
     hour := hour t; minute := minute t; second := second t; microsecond := 0 |}.

(** The ranges of the fields of a [datetime]. *)
Definition valid_datetime (t : DateTime) : bool :=
  (1 <=? Z.of_nat (year t))%Z && (Z.of_nat (year t) <=? 9999)%Z &&
  (1 <=? Z.of_nat (month t))%Z && (Z.of_nat (month t) <=? 12)%Z &&
  (1 <=? Z.of_nat (day t))%Z && (Z.of_nat (day t) <=? 31)%Z &&
  (Z.of_nat (hour t) <=? 23)%Z && (Z.of_nat (minute t) <=? 59)%Z &&
  (Z.of_nat (second t) <=? 59)%Z && (Z.of_nat (microsecond t) <=? 999999)%Z.

(** ** Process start: [get_model] *)

(** [FeaturesUtils(tod_vae_ckpt=..., synchformer_ckpt=..., enable_conditions=...,
    mode=..., bigvgan_vocoder_ckpt=..., need_vae_encoder=...)] *)
Record FeaturesUtilsArgs : Type := {
  fu_tod_vae_ckpt : string;
  fu_synchformer_ckpt : string;
  fu_enable_conditions : bool;
  fu_mode : string;
  fu_bigvgan_vocoder_ckpt : string;
  fu_need_vae_encoder : bool
}.

(** What [get_model] calls: the network constructor, [torch.load],
    [load_weights], the [FeaturesUtils] constructor, and [.to(...)] and
    [.eval()] on both networks. *)
Class Loader `{Carrier} : Type := {
  StateDict : Type;
  get_my_mmaudio : string -> Result MMAudio;
  net_to : Device -> DType -> MMAudio -> Result MMAudio;
  net_eval : MMAudio -> MMAudio;
  torch_load : FS -> string -> Device -> bool -> Result StateDict;
  load_weights : MMAudio -> StateDict -> Result MMAudio;
  FeaturesUtils_new : FeaturesUtilsArgs -> Result FeaturesUtils;
  features_to : Device -> DType -> FeaturesUtils -> Result FeaturesUtils;
  features_eval : FeaturesUtils -> FeaturesUtils
}.

Section Start.
Context `{Library} {loader : Loader}.

Inductive StartStep : Type :=
| GetNet (name : string)
| NetTo (d : Device) (t : DType)
| NetEval
| TorchLoad (path : string) (map_location : Device) (weights_only : bool)
| LoadWeights (state : StateDict)
| LogLoaded (msg : string)
| NewFeaturesUtils (a : FeaturesUtilsArgs)
| FeaturesTo (d : Device) (t : DType)
| FeaturesEval.

(** A computation at process start: the steps made, each with the
    exception it raised, and the result. *)
Definition Start (A : Type) : Type := (list (StartStep * option Exn) * Result A)%type.

Definition start_step {A} (s : StartStep) (r : Result A) : Start A := ([(s, raised r)], r).

Definition start_bind {A B} (m : Start A) (k : A -> Start B) : Start B :=
  match m with
  | (tr, Ok a) => match k a with (tr', r) => (tr ++ tr', r) end
  | (tr, Raise e) => (tr, Raise e)
  end.

(** [get_model()], reading the global [model] and the files under [f]. *)
Definition get_model (model : ModelConfig) (f : FS)
    : Start (MMAudio * FeaturesUtils * SequenceConfig) :=
  let seq_cfg := seq_cfg model in
  start_bind (start_step (GetNet (model_name model)) (get_my_mmaudio (model_name model)))
    (fun net =>
  start_bind (start_step (NetTo device dtype) (net_to device dtype net)) (fun net =>
  start_bind (start_step NetEval (Ok (net_eval net))) (fun net =>
  start_bind (start_step (TorchLoad (model_path model) device true)
                (torch_load f (model_path model) device true)) (fun state =>
  start_bind (start_step (LoadWeights state) (load_weights net state)) (fun net =>
  start_bind (start_step (LogLoaded ("Loaded weights from " ++ model_path model)) (Ok tt))
    (fun _ =>
  let args := {| fu_tod_vae_ckpt := vae_path model;
                 fu_synchformer_ckpt := synchformer_ckpt model;
                 fu_enable_conditions := true;
                 fu_mode := mode model;
                 fu_bigvgan_vocoder_ckpt := bigvgan_16k_path model;
                 fu_need_vae_encoder := false |} in
  start_bind (start_step (NewFeaturesUtils args) (FeaturesUtils_new args))
    (fun feature_utils =>
  start_bind (start_step (FeaturesTo device dtype) (features_to device dtype feature_utils))
    (fun feature_utils =>
  start_bind (start_step FeaturesEval (Ok (features_eval feature_utils)))
    (fun feature_utils =>
  ([], Ok (net, feature_utils, seq_cfg))))))))))).

(** The globals once the module is loaded: [output_dir] (line 39) and
    [net, feature_utils, seq_cfg = get_model()] (line 61), [seq_cfg] being
    the object held by [model]; nothing is read yet from the entropy
    source or the clocks. *)
Definition loaded (model : ModelConfig) (f : FS) : Start World :=
  start_bind (get_model model f) (fun got =>
  match got with
  | (net, feature_utils, _) =>
      ([], Ok {| model := model; net := net; feature_utils := feature_utils;
                 output_dir := configured_output_dir; fs := f;
                 entropy_reads := 0; time_reads := 0; now_reads := 0 |})
  end).

End Start.

(** A loader for the small instance: the weights are the number stored in
    the checkpoint file. *)
Module DemoStart.
Import Demo.

#[export] Instance loader : Loader := {|
  StateDict := Z;
  get_my_mmaudio := fun name =>
    if String.eqb name "large_44k_v2"
    then Ok {| weights := 0%Z; latent_len := 345; clip_len := 64; sync_len := 192 |}
    else Raise (External "KeyError");
  net_to := fun _ _ n => Ok n;
  net_eval := fun n => n;
  torch_load := fun f path _ _ =>
    match f !! Path_of path with
    | Some (File [x]) => Ok x
    | Some _ => Raise (External "UnpicklingError")
    | None => Raise FileNotFoundError
    end;
  load_weights := fun n x => Ok {| weights := x; latent_len := latent_len n;
                                   clip_len := clip_len n; sync_len := sync_len n |};
  FeaturesUtils_new := fun a => if fu_need_vae_encoder a then Raise (External "ValueError")
                                else Ok 3%Z;
  features_to := fun _ _ u => Ok u;
  features_eval := fun u => u
|}.

Definition model0 : ModelConfig := model world0.

Definition disk0 : FS :=
  {[ Path_of "weights/mmaudio_large_44k_v2.pth" := File [7]%Z;
     Path_of "clip.mp4" := File [1; 2; 3]%Z ]}.

(** An output directory whose name is taken by a regular file. *)
Definition world_blocked : World :=
  {| model := model world0; net := net world0; feature_utils := feature_utils world0;
     output_dir := configured_output_dir;
     fs := {[ Path_of "output" := Dir; Path_of "output/gradio" := File [0]%Z ]};
     entropy_reads := 0; time_reads := 0; now_reads := 0 |}.

(** The parent of the output directory is a regular file. *)
Definition world_blocked_above : World :=
  {| model := model world0; net := net world0; feature_utils := feature_utils world0;
     output_dir := configured_output_dir;
     fs := {[ Path_of "output" := File [0]%Z ]};
     entropy_reads := 0; time_reads := 0; now_reads := 0 |}.

End DemoStart.

(** The small instance with a [generate] that returns an empty batch. *)
Module DemoEmpty.
Import Demo.

Definition library : Library := {|
  cuda_is_available := false;
  mps_is_available := false;
  entropy := @entropy _ Demo.library;
  time_time := @time_time _ Demo.library;
  datetime_now := @datetime_now _ Demo.library;
  initial_state := @initial_state _ Demo.library;
  seed_state := @seed_state _ Demo.library;
  frames_to := @frames_to _ Demo.library;
  tensor_float := @tensor_float _ Demo.library;
  tensor_cpu := @tensor_cpu _ Demo.library;
  latent_seq_len := @latent_seq_len _ Demo.library;
  clip_seq_len := @clip_seq_len _ Demo.library;
  sync_seq_len := @sync_seq_len _ Demo.library;
  load_video := @load_video _ Demo.library;
  generate := fun _ => Ok [];
  make_video := @make_video _ Demo.library;
  torchaudio_save := @torchaudio_save _ Demo.library;
  float_sub := @float_sub _ Demo.library;
  format_2f := @format_2f _ Demo.library
|}.

End DemoEmpty.

(** * Properties *)

(** ** Paths and timestamps *)

Lemma split_slash_plain (s : string) :
  forallb (fun c => negb (Ascii.eqb c slash)) (list_ascii_of_string s) = true ->
  split_slash s = [s].
Proof.
  induction s as [|c s IH]; simpl; [reflexivity|].
  intros Hs. apply andb_true_iff in Hs as [Hc Hs].
  destruct (Ascii.eqb c slash); [discriminate|].
  rewrite (IH Hs). reflexivity.
Qed.

Lemma Path_of_plain (name : string) :
  plain_name name = true -> Path_of name = {| anchored := false; parts := [name] |}.
Proof.
  unfold plain_name, Path_of. intros Hn.
  apply andb_true_iff in Hn as [Hs Hk].
  rewrite (split_slash_plain _ Hs). simpl. rewrite Hk.
  destruct name as [|c name]; [reflexivity|].
  simpl in Hs. apply andb_true_iff in Hs as [Hc _].
  destruct (Ascii.eqb c slash); [discriminate|reflexivity].
Qed.

Lemma Path_div_plain (dir : Path) (name : string) :
  plain_name name = true ->
  Path_div dir name = {| anchored := anchored dir; parts := parts dir ++ [name] |}.
Proof.
  intros Hn. unfold Path_div. rewrite (Path_of_plain _ Hn). reflexivity.
Qed.

Lemma Path_div_parent (dir : Path) (name : string) :
  plain_name name = true -> Path_parent (Path_div dir name) = dir.
Proof.
  intros Hn. rewrite (Path_div_plain _ _ Hn). unfold Path_parent; simpl.
  rewrite removelast_last. destruct dir; reflexivity.
Qed.

Lemma Path_div_name (dir : Path) (name : string) :
  plain_name name = true -> Path_name (Path_div dir name) = name.
Proof.
  intros Hn. rewrite (Path_div_plain _ _ Hn). unfold Path_name; simpl.
  apply last_last.
Qed.

Lemma digit_cases (n : nat) :
  exists k, (k < 10)%nat /\ digit n = ascii_of_nat (48 + k).
Proof.
  exists (n mod 10). split; [|reflexivity].
  apply Nat.mod_upper_bound. discriminate.
Qed.

Ltac each_digit k Hk :=
  do 10 (destruct k as [|k]; [reflexivity|]); exfalso; lia.

Lemma digit_is_digit (n : nat) : is_digit (digit n) = true.
Proof.
  destruct (digit_cases n) as (k & Hk & ->). each_digit k Hk.
Qed.

Lemma digit_not_slash (n : nat) : Ascii.eqb (digit n) slash = false.
Proof.
  destruct (digit_cases n) as (k & Hk & ->). each_digit k Hk.
Qed.

(** The handlers' format string yields year, month, day, an underscore,
    hour, minute, second. *)
Lemma strftime_stamp (t : DateTime) :
  strftime "%Y%m%d_%H%M%S" t =
  (pad4 (year t) ++ pad2 (month t) ++ pad2 (day t) ++ "_" ++
   pad2 (hour t) ++ pad2 (minute t) ++ pad2 (second t))%string.
Proof. reflexivity. Qed.

Lemma stamp_shape (t : DateTime) : timestamp_shape (strftime "%Y%m%d_%H%M%S" t) = true.
Proof.
  rewrite strftime_stamp.
  cbv [timestamp_shape pad4 pad2 String.append list_ascii_of_string forallb].
  rewrite !digit_is_digit. reflexivity.
Qed.

Lemma chars_app (s1 s2 : string) :
  list_ascii_of_string (s1 ++ s2)%string = list_ascii_of_string s1 ++ list_ascii_of_string s2.
Proof.
  induction s1 as [|c s1 IH]; [reflexivity|].
  change (list_ascii_of_string (String c (s1 ++ s2)%string) =
          c :: (list_ascii_of_string s1 ++ list_ascii_of_string s2)).
  simpl. now rewrite IH.
Qed.

Lemma kept_two (a b : ascii) (s : string) : kept_component (String a (String b s)) = true.
Proof.
  unfold kept_component. simpl. destruct (Ascii.eqb a "."); reflexivity.
Qed.

Lemma stamp_plain (t : DateTime) (ext : string) :
  forallb (fun c => negb (Ascii.eqb c slash)) (list_ascii_of_string ext) = true ->
  plain_name (strftime "%Y%m%d_%H%M%S" t ++ ext)%string = true.
Proof.
  intros Hext. unfold plain_name. apply andb_true_iff. split.
  - rewrite chars_app, forallb_app, Hext, andb_true_r, strftime_stamp.
    cbv [pad4 pad2 String.append list_ascii_of_string forallb].
    rewrite !digit_not_slash. reflexivity.
  - rewrite strftime_stamp. cbv [pad4 pad2 String.append]. apply kept_two.
Qed.

(** ** Making directories *)

Section MkdirFacts.
Context `{Carrier}.
Implicit Types (fs : FS) (p q : Path).

Lemma is_dir_exists fs p : is_dir fs p = true -> exists_ fs p = true.
Proof.
  unfold is_dir, exists_. destruct (parts p); [reflexivity|].
  destruct (fs !! p) as [[]|]; congruence.
Qed.

Lemma is_dir_insert fs p : is_dir (<[p := Dir]> fs) p = true.
Proof.
  unfold is_dir. destruct (parts p); [reflexivity|].
  now rewrite lookup_insert_eq.
Qed.

Lemma exists_insert_ne fs p q n : p <> q -> exists_ (<[q := n]> fs) p = exists_ fs p.
Proof.
  intros Hne. unfold exists_. destruct (parts p); [reflexivity|].
  rewrite lookup_insert_ne; [reflexivity|congruence].
Qed.

Lemma os_mkdir_taken p fs : exists_ fs p = true -> os_mkdir p fs = Raise FileExistsError.
Proof. intros Hp. unfold os_mkdir. now rewrite Hp. Qed.

Lemma os_mkdir_fresh p fs :
  exists_ fs p = false -> is_dir fs (Path_parent p) = true ->
  os_mkdir p fs = Ok (<[p := Dir]> fs).
Proof. intros Hp Hd. unfold os_mkdir. now rewrite Hp, Hd. Qed.

Lemma os_mkdir_orphan p fs :
  exists_ fs p = false -> exists_ fs (Path_parent p) = false ->
  os_mkdir p fs = Raise FileNotFoundError.
Proof.
  intros Hp Hq. unfold os_mkdir. rewrite Hp, Hq.
  destruct (is_dir fs (Path_parent p)) eqn:Hd; [|reflexivity].
  apply is_dir_exists in Hd. congruence.
Qed.

Lemma os_mkdir_ok p fs fs' : os_mkdir p fs = Ok fs' -> fs' = <[p := Dir]> fs.
Proof.
  unfold os_mkdir.
  destruct (exists_ fs p); [discriminate|].
  destruct (is_dir fs (Path_parent p)); [congruence|].
  destruct (exists_ fs (Path_parent p)); discriminate.
Qed.

Lemma mkdir_here_dir p ok fs fs' : mkdir_here p ok fs = Ok fs' -> is_dir fs' p = true.
Proof.
  unfold mkdir_here. destruct (os_mkdir p fs) as [fs1|e] eqn:Hos.
  - intros [= <-]. apply os_mkdir_ok in Hos as ->. apply is_dir_insert.
  - destruct e; try discriminate;
      (destruct ok; simpl; [|discriminate]);
      (destruct (is_dir fs p) eqn:Hd; [|discriminate]); congruence.
Qed.

Lemma mkdir_from_eq anch rp parents ok fs :
  mkdir_from anch rp parents ok fs =
  let p := {| anchored := anch; parts := rev rp |} in
  match os_mkdir p fs with
  | Ok fs' => Ok fs'
  | Raise FileNotFoundError =>
      match rp with
      | [] => Raise FileNotFoundError
      | _ :: rp' =>
          if parents then
            match mkdir_from anch rp' true true fs with
            | Ok fs1 => mkdir_here p ok fs1
            | Raise e => Raise e
            end
          else Raise FileNotFoundError
      end
  | Raise e => if ok && is_dir fs p then Ok fs else Raise e
  end.
Proof. destruct rp; reflexivity. Qed.

Lemma mkdir_from_dir anch rp parents ok fs fs' :
  mkdir_from anch rp parents ok fs = Ok fs' ->
  is_dir fs' {| anchored := anch; parts := rev rp |} = true.
Proof.
  rewrite mkdir_from_eq. cbv zeta.
  set (p := {| anchored := anch; parts := rev rp |}).
  destruct (os_mkdir p fs) as [fs1|e] eqn:Hos.
  - intros [= <-]. apply os_mkdir_ok in Hos as ->. apply is_dir_insert.
  - destruct e;
      try (destruct ok; simpl; [|discriminate];
           destruct (is_dir fs p) eqn:Hd; [congruence|discriminate]).
    destruct rp as [|a rp']; [discriminate|].
    destruct parents; [|discriminate].
    destruct (mkdir_from anch rp' true true fs) as [fs1|e]; [|discriminate].
    apply mkdir_here_dir.
Qed.

Lemma Path_rev_rev p : {| anchored := anchored p; parts := rev (rev (parts p)) |} = p.
Proof. rewrite rev_involutive. now destruct p. Qed.

(** A successful [mkdir] leaves a directory at the path. *)
Lemma Path_mkdir_dir p parents ok fs fs' :
  Path_mkdir p parents ok fs = Ok fs' -> is_dir fs' p = true.
Proof.
  unfold Path_mkdir. intros Hm. apply mkdir_from_dir in Hm.
  now rewrite Path_rev_rev in Hm.
Qed.

(** With [exist_ok], making a directory that is there changes nothing. *)
Lemma Path_mkdir_again p parents fs :
  is_dir fs p = true -> Path_mkdir p parents true fs = Ok fs.
Proof.
  intros Hd. unfold Path_mkdir. rewrite mkdir_from_eq. cbv zeta.
  rewrite Path_rev_rev, (os_mkdir_taken _ _ (is_dir_exists _ _ Hd)), Hd.
  reflexivity.
Qed.

Lemma parent_snoc anch a rp :
  Path_parent {| anchored := anch; parts := rev (a :: rp) |} =
  {| anchored := anch; parts := rev rp |}.
Proof. unfold Path_parent. simpl. now rewrite removelast_last. Qed.

(** With [parents], a missing parent is made first. *)
Lemma Path_mkdir_parents p ok fs :
  exists_ fs p = false ->
  exists_ fs (Path_parent p) = false ->
  is_dir fs (Path_parent (Path_parent p)) = true ->
  Path_mkdir p true ok fs = Ok (<[p := Dir]> (<[Path_parent p := Dir]> fs)).
Proof.
  intros Hp Hq Hg. unfold Path_mkdir.
  assert (Hparts : exists a b rp, rev (parts p) = a :: b :: rp).
  { destruct (rev (parts p)) as [|a [|b rp]] eqn:Hr; [| |eauto].
    - apply (f_equal (@rev string)) in Hr. rewrite rev_involutive in Hr.
      unfold exists_ in Hp. rewrite Hr in Hp. discriminate.
    - apply (f_equal (@rev string)) in Hr. rewrite rev_involutive in Hr.
      unfold exists_, Path_parent in Hq. rewrite Hr in Hq. discriminate. }
  destruct Hparts as (a & b & rp & Hr).
  assert (Ep : p = {| anchored := anchored p; parts := rev (a :: b :: rp) |}).
  { rewrite <- Hr. symmetry. apply Path_rev_rev. }
  rewrite Hr.
  set (par := {| anchored := anchored p; parts := rev (b :: rp) |}).
  assert (Epar : Path_parent p = par).
  { rewrite Ep. apply parent_snoc. }
  assert (Hne : p <> par).
  { rewrite Ep. unfold par. intros [= Hl]. apply (f_equal (@length string)) in Hl.
    simpl in Hl. rewrite !length_app in Hl. simpl in Hl. lia. }
  rewrite Epar in *.
  rewrite mkdir_from_eq. cbv zeta. rewrite <- Ep.
  rewrite (os_mkdir_orphan _ _ Hp) by now rewrite Epar.
  rewrite mkdir_from_eq. cbv zeta. fold par.
  rewrite (os_mkdir_fresh _ _ Hq Hg).
  unfold mkdir_here.
  rewrite os_mkdir_fresh; [reflexivity| |].
  - now rewrite exists_insert_ne.
  - rewrite Epar. apply is_dir_insert.
Qed.

End MkdirFacts.

(** ** The handlers *)

Section Properties.
Context `{Library}.

Ltac unfold_handler :=
  unfold video_to_audio, text_to_audio;
  unfold mbind, M_bind, mret, M_ret, torch_Generator, manual_seed, entropy_seed,
    do_load_video, assign_duration, net_update_seq_lengths, do_time, global,
    do_generate, log_info, index0, do_now, do_mkdir, do_make_video, do_save, step.

Ltac reduce :=
  cbn -[strftime Path_div Path_mkdir Z.leb String.append seed_in_range seed_accepted].

(** One step of symbolic execution: split on the next answer of the
    environment the run is waiting for. *)
Ltac branch :=
  match goal with
  | |- context [if (0 <=? ?s)%Z then _ else _] => destruct (0 <=? s)%Z eqn:?
  | |- context [if seed_in_range ?s then _ else _] => destruct (seed_in_range s) eqn:?
  | |- context [match load_video ?f ?v ?d with _ => _ end] =>
      destruct (load_video f v d) as [?|?] eqn:?
  | |- context [match generate ?a with _ => _ end] =>
      destruct (generate a) as [[|? ?]|?] eqn:?
  | |- context [match Path_mkdir ?p ?a ?b ?f with _ => _ end] =>
      destruct (Path_mkdir p a b f) as [?|?] eqn:?
  | |- context [make_video ?v ?p ?a ?r ?f] =>
      destruct (make_video v p a r f) as [[[]|?] ?] eqn:?
  | |- context [torchaudio_save ?p ?t ?r ?f] =>
      destruct (torchaudio_save p t r f) as [[[]|?] ?] eqn:?
  end.

Lemma seed_accepted_cases (seed : Z) :
  seed_accepted seed = if (0 <=? seed)%Z then seed_in_range seed else true.
Proof.
  unfold seed_accepted. rewrite Z.ltb_antisym.
  destruct (0 <=? seed)%Z; reflexivity.
Qed.

(** The runs are split on the seed first; [seed_accepted] in the statement
    follows the split. *)
Ltac exec :=
  unfold seeding_raised; rewrite ?seed_accepted_cases;
  unfold_handler; reduce; repeat (branch; reduce).

Ltac branch_seed :=
  match goal with
  | |- context [if (0 <=? ?s)%Z then _ else _] => destruct (0 <=? s)%Z eqn:?
  | |- context [if seed_in_range ?s then _ else _] => destruct (seed_in_range s) eqn:?
  end.

(** The same for a run whose video is known to decode. *)
Ltac exec_decoded Hv :=
  unfold seeding_raised; rewrite ?seed_accepted_cases;
  unfold_handler; reduce; repeat (branch_seed; reduce);
  rewrite ?Hv; reduce; repeat (branch; reduce).

Lemma text_generate_calls prompt neg seed steps strength d w :
  generate_calls (events (text_to_audio prompt neg seed steps strength d w)) =
  if seed_accepted seed then [text_args w prompt neg seed steps strength d] else [].
Proof.
  unfold text_args, request_rng, lengths_for. exec; reflexivity.
Qed.

Lemma video_generate_calls video prompt neg seed steps strength d w :
  generate_calls (events (video_to_audio video prompt neg seed steps strength d w)) =
  if seed_accepted seed then
    match load_video (fs w) video d with
    | Ok v => [video_args w v prompt neg seed steps strength]
    | Raise _ => []
    end
  else [].
Proof.
  unfold video_args, request_rng, lengths_for. exec; reflexivity.
Qed.

Lemma text_generate_contexts prompt neg seed steps strength d w :
  generate_contexts None None (events (text_to_audio prompt neg seed steps strength d w)) =
  if seed_accepted seed then
    [{| assigned := Some d;
        updated := Some (lengths_for (seq_cfg (model w)) d);
        call := text_args w prompt neg seed steps strength d |}]
  else [].
Proof.
  unfold text_args, request_rng, lengths_for. exec; reflexivity.
Qed.

Lemma video_generate_contexts video prompt neg seed steps strength d w :
  generate_contexts None None
    (events (video_to_audio video prompt neg seed steps strength d w)) =
  if seed_accepted seed then
    match load_video (fs w) video d with
    | Ok v => [{| assigned := Some (duration_sec v);
                  updated := Some (lengths_for (seq_cfg (model w)) (duration_sec v));
                  call := video_args w v prompt neg seed steps strength |}]
    | Raise _ => []
    end
  else [].
Proof.
  unfold video_args, request_rng, lengths_for. exec; reflexivity.
Qed.

Lemma text_final_seq_cfg prompt neg seed steps strength d w :
  seq_cfg (model (final (text_to_audio prompt neg seed steps strength d w))) =
  if seed_accepted seed then set_duration (seq_cfg (model w)) d else seq_cfg (model w).
Proof. exec; reflexivity. Qed.

Lemma video_final_seq_cfg video prompt neg seed steps strength d w v :
  load_video (fs w) video d = Ok v ->
  seq_cfg (model (final (video_to_audio video prompt neg seed steps strength d w))) =
  if seed_accepted seed then set_duration (seq_cfg (model w)) (duration_sec v)
  else seq_cfg (model w).
Proof. intros Hv. exec; congruence. Qed.

Lemma text_assigned_durations prompt neg seed steps strength d w :
  assigned_durations (events (text_to_audio prompt neg seed steps strength d w)) =
  if seed_accepted seed then [d] else [].
Proof. exec; reflexivity. Qed.

Lemma video_assigned_durations video prompt neg seed steps strength d w v :
  load_video (fs w) video d = Ok v ->
  assigned_durations (events (video_to_audio video prompt neg seed steps strength d w)) =
  if seed_accepted seed then [duration_sec v] else [].
Proof. intros Hv. exec; congruence. Qed.

Lemma fresh_text (w : World) prompt neg seed steps strength (d : Float) :
  fresh w d {| assigned := Some d;
               updated := Some (lengths_for (seq_cfg (model w)) d);
               call := text_args w prompt neg seed steps strength d |}.
Proof.
  exists (set_duration (seq_cfg (model w)) d). repeat split.
Qed.

Lemma fresh_video (w : World) (v : VideoInfo) prompt neg seed steps strength :
  fresh w (duration_sec v)
    {| assigned := Some (duration_sec v);
       updated := Some (lengths_for (seq_cfg (model w)) (duration_sec v));
       call := video_args w v prompt neg seed steps strength |}.
Proof.
  exists (set_duration (seq_cfg (model w)) (duration_sec v)). repeat split.
Qed.

(** C3: [generate] is only ever called on a configuration made in the same
    request: in every run of either handler, each [generate] call comes
    after the duration was assigned to the shared sequence configuration
    and after the lengths derived from it were pushed into the network, and
    it is given the network with these lengths, whatever an earlier request
    left behind.  The duration is the requested one on the text path and
    the decoded one on the video path, and it is the duration the
    configuration holds afterwards.  A request whose seeding or decoding
    raises never reaches [generate]; any other makes exactly one call. *)
Theorem sequence_configured_before_generate video prompt neg seed steps strength d w :
  (if seed_accepted seed then
     exists c,
       generate_contexts None None
         (events (text_to_audio prompt neg seed steps strength d w)) = [c] /\
       fresh w d c /\
       duration (seq_cfg (model (final (text_to_audio prompt neg seed steps strength d w)))) =
         d
   else
     generate_contexts None None
       (events (text_to_audio prompt neg seed steps strength d w)) = []) /\
  match load_video (fs w) video d with
  | Ok v =>
      if seed_accepted seed then
        exists c,
          generate_contexts None None
            (events (video_to_audio video prompt neg seed steps strength d w)) = [c] /\
          fresh w (duration_sec v) c /\
          duration
            (seq_cfg (model (final (video_to_audio video prompt neg seed steps strength d w)))) =
            duration_sec v
      else
        generate_contexts None None
          (events (video_to_audio video prompt neg seed steps strength d w)) = []
  | Raise _ =>
      generate_contexts None None
        (events (video_to_audio video prompt neg seed steps strength d w)) = []
  end.
Proof.
  split.
  - pose proof (text_generate_contexts prompt neg seed steps strength d w) as Hc.
    pose proof (text_final_seq_cfg prompt neg seed steps strength d w) as Hf.
    destruct (seed_accepted seed); [|exact Hc].
    eexists. split; [exact Hc|]. split; [apply fresh_text|]. now rewrite Hf.
  - pose proof (video_generate_contexts video prompt neg seed steps strength d w) as Hc.
    destruct (load_video (fs w) video d) as [v|e] eqn:Hv.
    + pose proof (video_final_seq_cfg video prompt neg seed steps strength d w v Hv) as Hf.
      destruct (seed_accepted seed); [|exact Hc].
      eexists. split; [exact Hc|]. split; [apply fresh_video|]. now rewrite Hf.
    + destruct (seed_accepted seed); exact Hc.
Qed.

(** C6: whatever its input, [text_to_audio] makes no [load_video] call, and
    every [generate] call it makes is given no clip frames and no sync
    frames; it makes one such call unless its seeding raises. *)
Theorem text_to_audio_never_decodes prompt neg seed steps strength d w :
  List.filter loads_video (events (text_to_audio prompt neg seed steps strength d w)) = [] /\
  Forall (fun a => clip_video a = None /\ sync_video a = None)
    (generate_calls (events (text_to_audio prompt neg seed steps strength d w))) /\
  length (generate_calls (events (text_to_audio prompt neg seed steps strength d w))) =
    (if seed_accepted seed then 1 else 0)%nat.
Proof.
  split; [exec; reflexivity|].
  rewrite text_generate_calls.
  destruct (seed_accepted seed); split; repeat constructor.
Qed.

(** C10: in every call of [text_to_audio] whose seeding does not raise,
    the requested duration is written into the shared sequence
    configuration exactly as received: it is the only duration assigned in
    the run, the configuration holds it when the run ends (however it ends)
    with its other fields untouched, and [generate] runs on the lengths
    derived from it. *)
Theorem text_to_audio_keeps_requested_duration prompt neg seed steps strength d w :
  seed_accepted seed = true ->
  assigned_durations (events (text_to_audio prompt neg seed steps strength d w)) = [d] /\
  duration (seq_cfg (model (final (text_to_audio prompt neg seed steps strength d w)))) = d /\
  sampling_rate (seq_cfg (model (final (text_to_audio prompt neg seed steps strength d w)))) =
    sampling_rate (seq_cfg (model w)) /\
  seq_params (seq_cfg (model (final (text_to_audio prompt neg seed steps strength d w)))) =
    seq_params (seq_cfg (model w)) /\
  exists c,
    generate_contexts None None
      (events (text_to_audio prompt neg seed steps strength d w)) = [c] /\
    fresh w d c.
Proof.
  intros Hs.
  rewrite text_assigned_durations, text_final_seq_cfg, text_generate_contexts, Hs.
  repeat split. eexists. split; [reflexivity | apply fresh_text].
Qed.

Lemma only_sequence_changed_same (w w' : World) :
  model w' = model w -> net w' = net w ->
  feature_utils w' = feature_utils w -> output_dir w' = output_dir w ->
  only_sequence_changed w w'.
Proof.
  intros Hm Hn Hf Ho. unfold only_sequence_changed. rewrite Hm, Hn.
  repeat split; trivial.
  - exists (duration (seq_cfg (model w))).
    destruct (model w) as [? ? ? ? ? ? []]. reflexivity.
  - exists (latent_len (net w)), (clip_len (net w)), (sync_len (net w)).
    destruct (net w). reflexivity.
Qed.

Ltac frame :=
  first [ apply only_sequence_changed_same; reflexivity
        | unfold only_sequence_changed; reduce;
          split; [eexists; reflexivity|];
          split; [do 3 eexists; reflexivity|];
          repeat split ].

(** C9: of the shared state, a call to either handler changes at most the
    duration of the sequence configuration and the sequence lengths held
    by the network; the weights, the feature-extraction network, the other
    fields of the model configuration and the output directory are as
    before, however the call ends. *)
Theorem handlers_change_only_sequence_state video prompt neg seed steps strength d w :
  only_sequence_changed w (final (video_to_audio video prompt neg seed steps strength d w)) /\
  only_sequence_changed w (final (text_to_audio prompt neg seed steps strength d w)).
Proof.
  split.
  - exec; frame.
  - exec; frame.
Qed.

Lemma text_opens_with_rng prompt neg seed steps strength d w :
  exists rest,
    events (text_to_audio prompt neg seed steps strength d w) =
    (NewGenerator device, None) :: (seeding w seed, seeding_raised seed) :: rest.
Proof. unfold seeding. exec; eexists; reflexivity. Qed.

Lemma video_opens_with_rng video prompt neg seed steps strength d w :
  exists rest,
    events (video_to_audio video prompt neg seed steps strength d w) =
    (NewGenerator device, None) :: (seeding w seed, seeding_raised seed) :: rest.
Proof. unfold seeding. exec; eexists; reflexivity. Qed.

Lemma text_generation_outcome prompt neg seed steps strength d w :
  seed_accepted seed = true ->
  generation_outcome w (text_to_audio prompt neg seed steps strength d w)
    (text_args w prompt neg seed steps strength d).
Proof.
  unfold generation_outcome, text_args, request_rng, lengths_for.
  exec; intros Hs; try discriminate Hs; repeat split.
Qed.

Lemma video_generation_outcome video prompt neg seed steps strength d w v :
  seed_accepted seed = true ->
  load_video (fs w) video d = Ok v ->
  generation_outcome w (video_to_audio video prompt neg seed steps strength d w)
    (video_args w v prompt neg seed steps strength).
Proof.
  intros Hs Hv. revert Hs.
  unfold generation_outcome, video_args, request_rng, lengths_for.
  exec_decoded Hv; intros Hs; try discriminate Hs; repeat split.
Qed.

(** C7: the [generate] call of a request (there is one once the generator
    is seeded and, on the video path, the video decoded; none otherwise) is
    given the frames of the decoded video, each as a batch of one (none on
    the text path), the prompt and the negative prompt as singleton lists,
    the shared feature network and the reconfigured network, a sampler
    built with [min_sigma=0], 'euler' and the requested number of steps,
    the requested guidance strength, and a generator that the request
    itself constructs and seeds as its first two steps; [generate]
    returning one waveform per prompt, its output is a batch of one, and
    that waveform is the audio the request writes. *)
Theorem generate_call_shape video prompt neg seed steps strength d w :
  generate_calls (events (text_to_audio prompt neg seed steps strength d w)) =
    (if seed_accepted seed then
       [{| clip_video := None;
           sync_video := None;
           text := [prompt];
           negative_text := [neg];
           arg_feature_utils := feature_utils w;
           arg_net :=
             update_seq_lengths (net w)
               (latent_seq_len (set_duration (seq_cfg (model w)) d))
               (clip_seq_len (set_duration (seq_cfg (model w)) d))
               (sync_seq_len (set_duration (seq_cfg (model w)) d));
           fm := {| min_sigma := 0; inference_mode := "euler"; num_steps := steps |};
           rng := {| gen_device := device;
                     gen_state :=
                       seed_state device
                         (if (0 <=? seed)%Z then seed else entropy (entropy_reads w)) |};
           cfg_strength := strength |}]
     else []) /\
  generate_calls (events (video_to_audio video prompt neg seed steps strength d w)) =
    (if seed_accepted seed then
       match load_video (fs w) video d with
       | Ok v =>
           [{| clip_video := Some [frames_to device bfloat16 (clip_frames v)];
               sync_video := Some [frames_to device bfloat16 (sync_frames v)];
               text := [prompt];
               negative_text := [neg];
               arg_feature_utils := feature_utils w;
               arg_net :=
                 update_seq_lengths (net w)
                   (latent_seq_len (set_duration (seq_cfg (model w)) (duration_sec v)))
                   (clip_seq_len (set_duration (seq_cfg (model w)) (duration_sec v)))
                   (sync_seq_len (set_duration (seq_cfg (model w)) (duration_sec v)));
               fm := {| min_sigma := 0; inference_mode := "euler"; num_steps := steps |};
               rng := {| gen_device := device;
                         gen_state :=
                           seed_state device
                             (if (0 <=? seed)%Z then seed
                              else entropy (entropy_reads w)) |};
               cfg_strength := strength |}]
       | Raise _ => []
       end
     else []) /\
  (exists rest,
     events (text_to_audio prompt neg seed steps strength d w) =
     (NewGenerator device, None) :: (seeding w seed, seeding_raised seed) :: rest) /\
  (exists rest,
     events (video_to_audio video prompt neg seed steps strength d w) =
     (NewGenerator device, None) :: (seeding w seed, seeding_raised seed) :: rest) /\
  (one_waveform_per_prompt ->
   Forall (fun a =>
             generation_outcome w (text_to_audio prompt neg seed steps strength d w) a /\
             forall audios, generate a = Ok audios -> length audios = 1%nat)
     (generate_calls (events (text_to_audio prompt neg seed steps strength d w))) /\
   Forall (fun a =>
             generation_outcome w (video_to_audio video prompt neg seed steps strength d w) a /\
             forall audios, generate a = Ok audios -> length audios = 1%nat)
     (generate_calls (events (video_to_audio video prompt neg seed steps strength d w)))).
Proof.
  split; [apply text_generate_calls|].
  split; [apply video_generate_calls|].
  split; [apply text_opens_with_rng|].
  split; [apply video_opens_with_rng|].
  intros Hbatch.
  rewrite text_generate_calls, video_generate_calls.
  destruct (seed_accepted seed) eqn:Hs; [|split; constructor].
  split.
  - repeat constructor.
    + now apply text_generation_outcome.
    + intros audios Hg. apply (Hbatch _ _ Hg).
  - destruct (load_video (fs w) video d) as [v|e] eqn:Hv; repeat constructor.
    + now apply video_generation_outcome.
    + intros audios Hg. apply (Hbatch _ _ Hg).
Qed.








(** What a successful run of each handler looks like. *)
Lemma text_success prompt neg seed steps strength d w p :
  result (text_to_audio prompt neg seed steps strength d w) = Ok p ->
  exists a rest fs1,
    seed_accepted seed = true /\
    generate (text_args w prompt neg seed steps strength d) = Ok (a :: rest) /\
    Path_mkdir (output_dir w) true true (fs w) = Ok fs1 /\
    p = Path_div (output_dir w)
          (strftime "%Y%m%d_%H%M%S" (datetime_now (now_reads w)) ++ ".flac") /\
    storage_steps (events (text_to_audio prompt neg seed steps strength d w)) =
      [(Mkdir (output_dir w) true true, None);
       (SaveAudio p [tensor_cpu (tensor_float a)] (sampling_rate (seq_cfg (model w))), None)] /\
    torchaudio_save p [tensor_cpu (tensor_float a)] (sampling_rate (seq_cfg (model w))) fs1 =
      (Ok tt, fs (final (text_to_audio prompt neg seed steps strength d w))).
Proof.
  unfold text_args, request_rng, lengths_for.
  exec; intros Hr; try discriminate Hr; injection Hr as <-;
    do 3 eexists; repeat split; eassumption.
Qed.

Lemma video_success video prompt neg seed steps strength d w p :
  result (video_to_audio video prompt neg seed steps strength d w) = Ok p ->
  exists v a rest fs1,
    seed_accepted seed = true /\
    load_video (fs w) video d = Ok v /\
    generate (video_args w v prompt neg seed steps strength) = Ok (a :: rest) /\
    Path_mkdir (output_dir w) true true (fs w) = Ok fs1 /\
    p = Path_div (output_dir w)
          (strftime "%Y%m%d_%H%M%S" (datetime_now (now_reads w)) ++ ".mp4") /\
    storage_steps (events (video_to_audio video prompt neg seed steps strength d w)) =
      [(Mkdir (output_dir w) true true, None);
       (MakeVideo v p (tensor_cpu (tensor_float a)) (sampling_rate (seq_cfg (model w))), None)] /\
    make_video v p (tensor_cpu (tensor_float a)) (sampling_rate (seq_cfg (model w))) fs1 =
      (Ok tt, fs (final (video_to_audio video prompt neg seed steps strength d w))).
Proof.
  unfold video_args, request_rng, lengths_for.
  exec; intros Hr; try discriminate Hr; injection Hr as <-;
    do 4 eexists; repeat split; eassumption.
Qed.

Lemma writes_storage (tr : list Event) : writes (storage_steps tr) = writes tr.
Proof.
  unfold writes, storage_steps.
  induction tr as [|[a o] tr IH]; [reflexivity|].
  destruct a, o; simpl; first [exact IH | f_equal; exact IH].
Qed.

Lemma artifacts_storage (tr : list Event) : artifacts (storage_steps tr) = artifacts tr.
Proof.
  unfold artifacts, storage_steps.
  induction tr as [|[a o] tr IH]; [reflexivity|].
  destruct a, o; simpl; first [exact IH | f_equal; exact IH].
Qed.

Lemma configured_output_dir_parts :
  configured_output_dir = {| anchored := false; parts := ["output"; "gradio"] |}.
Proof. reflexivity. Qed.

Lemma materialized_intro (w : World) (r : Run Path) (p : Path) (stamp ext : string)
    (wr : Action) (fs1 : FS) (t : DateTime) :
  stamp = strftime "%Y%m%d_%H%M%S" t ->
  forallb (fun c => negb (Ascii.eqb c slash)) (list_ascii_of_string ext) = true ->
  p = Path_div (output_dir w) (stamp ++ ext) ->
  storage_steps (events r) = [(Mkdir (output_dir w) true true, None); (wr, None)] ->
  fst <$> write_call (wr, None) = Some p ->
  Path_mkdir (output_dir w) true true (fs w) = Ok fs1 ->
  run_writer wr fs1 = Some (Ok tt, fs (final r)) ->
  materialized w r p (stamp ++ ext).
Proof.
  intros -> Hext -> Hsteps Hwr Hmk Hrun.
  pose proof (stamp_plain t ext Hext) as Hplain.
  unfold materialized.
  split; [reflexivity|].
  split; [now apply Path_div_parent|].
  split; [now apply Path_div_name|].
  split.
  { rewrite <- writes_storage, Hsteps. unfold writes. simpl.
    unfold write_call in *. simpl in *. now destruct wr; simplify_eq/=. }
  split.
  { rewrite <- artifacts_storage, Hsteps. unfold artifacts. simpl.
    unfold write_call in *. simpl in *. now destruct wr; simplify_eq/=. }
  split.
  { exists wr, fs1. split; [exact Hmk|].
    split; [exact Hsteps|]. split; [exact Hwr|]. split; [exact Hrun|].
    split; [now apply Path_mkdir_dir in Hmk|].
    split.
    - intros Hd. rewrite (Path_mkdir_again _ _ _ Hd) in Hmk. congruence.
    - intros Hp Hq Hg. rewrite (Path_mkdir_parents _ _ _ Hp Hq Hg) in Hmk. congruence. }
  intros Hdir. rewrite (Path_div_plain _ _ Hplain), Hdir. reflexivity.
Qed.

(** C5: a successful request leaves exactly one artifact, directly under
    the output directory, and returns its path; the file is named after
    the clock reading of the request, [YYYYMMDD_HHMMSS], followed by
    [.mp4] on the video path and [.flac] on the text path; the directory
    is made first with [parents=True, exist_ok=True], which changes
    nothing when it is already there; the writer ([make_video],
    [torchaudio.save]) then runs on that path and what it leaves is the
    file system at the end of the request; with the configured output
    directory the artifact is [output/gradio/<stamp><ext>]. *)
Theorem artifact_written_under_output_dir video prompt neg seed steps strength d w :
  timestamp_shape (strftime "%Y%m%d_%H%M%S" (datetime_now (now_reads w))) = true /\
  (forall p,
     result (video_to_audio video prompt neg seed steps strength d w) = Ok p ->
     materialized w (video_to_audio video prompt neg seed steps strength d w) p
       (strftime "%Y%m%d_%H%M%S" (datetime_now (now_reads w)) ++ ".mp4")) /\
  (forall p,
     result (text_to_audio prompt neg seed steps strength d w) = Ok p ->
     materialized w (text_to_audio prompt neg seed steps strength d w) p
       (strftime "%Y%m%d_%H%M%S" (datetime_now (now_reads w)) ++ ".flac")).
Proof.
  split; [apply stamp_shape|]. split.
  - intros p Hr.
    destruct (video_success _ _ _ _ _ _ _ _ _ Hr)
      as (v & a & rest & fs1 & _ & _ & _ & Hmk & Hp & Hs & Hw).
    eapply materialized_intro; eauto.
    simpl. now rewrite Hw.
  - intros p Hr.
    destruct (text_success _ _ _ _ _ _ _ _ Hr)
      as (a & rest & fs1 & _ & _ & Hmk & Hp & Hs & Hw).
    eapply materialized_intro; eauto.
    simpl. now rewrite Hw.
Qed.

(** C4: once the video is decoded, the only duration [video_to_audio]
    assigns to the sequence configuration, and the one the lengths given
    to [generate] are derived from, is [video_info.duration_sec], whatever
    duration was requested, and it is the duration the configuration holds
    when the request ends; a request whose seeding raises assigns none and
    calls [generate] on none.  With a decoder that resolves a video shorter
    than the requested duration to the video's length, that duration is the
    video's length. *)
Theorem video_duration_is_decoded_duration
    (length_of : FS -> string -> Float) (shorter : Float -> Float -> Prop)
    video prompt neg seed steps strength d w v :
  load_video (fs w) video d = Ok v ->
  (if seed_accepted seed then
     assigned_durations (events (video_to_audio video prompt neg seed steps strength d w)) =
       [duration_sec v] /\
     duration (seq_cfg (model (final (video_to_audio video prompt neg seed steps strength d w)))) =
       duration_sec v /\
     exists c,
       generate_contexts None None
         (events (video_to_audio video prompt neg seed steps strength d w)) = [c] /\
       fresh w (duration_sec v) c
   else
     assigned_durations (events (video_to_audio video prompt neg seed steps strength d w)) =
       [] /\
     generate_contexts None None
       (events (video_to_audio video prompt neg seed steps strength d w)) = []) /\
  (clips_to_source length_of shorter ->
   shorter (length_of (fs w) video) d ->
   seed_accepted seed = true ->
   assigned_durations (events (video_to_audio video prompt neg seed steps strength d w)) =
     [length_of (fs w) video] /\
   duration (seq_cfg (model (final (video_to_audio video prompt neg seed steps strength d w)))) =
     length_of (fs w) video /\
   exists c,
     generate_contexts None None
       (events (video_to_audio video prompt neg seed steps strength d w)) = [c] /\
     fresh w (length_of (fs w) video) c).
Proof.
  intros Hv.
  pose proof (video_assigned_durations video prompt neg seed steps strength d w v Hv) as Ha.
  pose proof (video_final_seq_cfg video prompt neg seed steps strength d w v Hv) as Hf.
  pose proof (video_generate_contexts video prompt neg seed steps strength d w) as Hc.
  rewrite Hv in Hc.
  destruct (seed_accepted seed).
  - assert (Hall :
      assigned_durations (events (video_to_audio video prompt neg seed steps strength d w)) =
        [duration_sec v] /\
      duration
        (seq_cfg (model (final (video_to_audio video prompt neg seed steps strength d w)))) =
        duration_sec v /\
      exists c,
        generate_contexts None None
          (events (video_to_audio video prompt neg seed steps strength d w)) = [c] /\
        fresh w (duration_sec v) c).
    { split; [exact Ha|]. split; [now rewrite Hf|].
      eexists. split; [exact Hc|apply fresh_video]. }
    split; [exact Hall|].
    intros Hclip Hshort _. rewrite <- (Hclip _ _ _ _ Hv Hshort). exact Hall.
  - split; [now split|]. intros _ _ Hs. discriminate Hs.
Qed.

(** *** Seeds *)

Lemma seed_accepted_negative (seed : Z) : (seed < 0)%Z -> seed_accepted seed = true.
Proof. intros Hs. unfold seed_accepted. apply Z.ltb_lt in Hs. now rewrite Hs. Qed.

Lemma request_rng_fixed (w1 w2 : World) (seed : Z) :
  (0 <= seed)%Z -> request_rng w1 seed = request_rng w2 seed.
Proof.
  intros Hs. unfold request_rng. apply Z.leb_le in Hs. now rewrite Hs.
Qed.

Lemma lengths_for_same (c1 c2 : SequenceConfig) (d : Float) :
  sampling_rate c1 = sampling_rate c2 -> seq_params c1 = seq_params c2 ->
  lengths_for c1 d = lengths_for c2 d.
Proof.
  intros Hr Hp. unfold lengths_for, set_duration. now rewrite Hr, Hp.
Qed.

Lemma update_seq_lengths_same (n1 n2 : MMAudio) (l c s : Z) :
  weights n1 = weights n2 -> update_seq_lengths n1 l c s = update_seq_lengths n2 l c s.
Proof. intros Hw. unfold update_seq_lengths. now rewrite Hw. Qed.

Lemma text_args_same w1 w2 prompt neg seed steps strength d :
  (0 <= seed)%Z -> same_model w1 w2 ->
  text_args w1 prompt neg seed steps strength d = text_args w2 prompt neg seed steps strength d.
Proof.
  intros Hs (Hw & Hf & Hr & Hp). unfold text_args.
  rewrite (request_rng_fixed w1 w2 _ Hs), (lengths_for_same _ _ d Hr Hp), Hf.
  cbv zeta. now rewrite (update_seq_lengths_same _ _ _ _ _ Hw).
Qed.

Lemma video_args_same w1 w2 v prompt neg seed steps strength :
  (0 <= seed)%Z -> same_model w1 w2 ->
  video_args w1 v prompt neg seed steps strength = video_args w2 v prompt neg seed steps strength.
Proof.
  intros Hs (Hw & Hf & Hr & Hp). unfold video_args.
  rewrite (request_rng_fixed w1 w2 _ Hs), (lengths_for_same _ _ (duration_sec v) Hr Hp), Hf.
  cbv zeta. now rewrite (update_seq_lengths_same _ _ _ _ _ Hw).
Qed.

Lemma written_audio_storage (tr : list Event) :
  written_audio (storage_steps tr) = written_audio tr.
Proof.
  unfold written_audio, storage_steps.
  induction tr as [|[a o] tr IH]; [reflexivity|].
  destruct a, o; simpl; first [exact IH | f_equal; exact IH].
Qed.

Lemma text_written prompt neg seed steps strength d w p :
  result (text_to_audio prompt neg seed steps strength d w) = Ok p ->
  exists a rest,
    generate (text_args w prompt neg seed steps strength d) = Ok (a :: rest) /\
    written_audio (events (text_to_audio prompt neg seed steps strength d w)) =
      [[tensor_cpu (tensor_float a)]].
Proof.
  intros Hr.
  destruct (text_success _ _ _ _ _ _ _ _ Hr) as (a & rest & fs1 & _ & Hg & _ & _ & Hs & _).
  exists a, rest. split; [exact Hg|].
  rewrite <- written_audio_storage, Hs. reflexivity.
Qed.

Lemma video_written video prompt neg seed steps strength d w p :
  result (video_to_audio video prompt neg seed steps strength d w) = Ok p ->
  exists v a rest,
    load_video (fs w) video d = Ok v /\
    generate (video_args w v prompt neg seed steps strength) = Ok (a :: rest) /\
    written_audio (events (video_to_audio video prompt neg seed steps strength d w)) =
      [[tensor_cpu (tensor_float a)]].
Proof.
  intros Hr.
  destruct (video_success _ _ _ _ _ _ _ _ _ Hr)
    as (v & a & rest & fs1 & _ & Hv & Hg & _ & _ & Hs & _).
  exists v, a, rest. split; [exact Hv|]. split; [exact Hg|].
  rewrite <- written_audio_storage, Hs. reflexivity.
Qed.

Lemma seeded_generator (w : World) (seed : Z) :
  (0 <= seed)%Z ->
  request_rng w seed = {| gen_device := device; gen_state := seed_state device seed |} /\
  seeding w seed = ManualSeed seed.
Proof.
  intros Hs. apply Z.leb_le in Hs. unfold request_rng, seeding. now rewrite Hs.
Qed.

(** C1: with a seed that is not negative, two calls of a handler with the
    same arguments, made in any two states of the process that hold the
    same loaded model (and, on the video path, in which the video decodes
    alike), open by building a generator and giving it the seed with
    [manual_seed]; the generator they hand to [generate] is the one seeded
    with that seed and nothing else, and [generate] is given the same
    arguments, so it produces the same batch (one batch on the text path
    when the seeding does not raise, none when it does); when both calls
    succeed, the waveform handed to the writer is the same. *)
Theorem fixed_seed_same_waveform video prompt neg seed steps strength d w1 w2 :
  (0 <= seed)%Z ->
  same_model w1 w2 ->
  load_video (fs w1) video d = load_video (fs w2) video d ->
  produced (events (text_to_audio prompt neg seed steps strength d w1)) =
    produced (events (text_to_audio prompt neg seed steps strength d w2)) /\
  length (produced (events (text_to_audio prompt neg seed steps strength d w1))) =
    (if seed_accepted seed then 1 else 0)%nat /\
  produced (events (video_to_audio video prompt neg seed steps strength d w1)) =
    produced (events (video_to_audio video prompt neg seed steps strength d w2)) /\
  Forall (fun a => rng a = {| gen_device := device; gen_state := seed_state device seed |})
    (generate_calls (events (text_to_audio prompt neg seed steps strength d w1)) ++
     generate_calls (events (video_to_audio video prompt neg seed steps strength d w1))) /\
  (exists rest1 rest2,
     events (text_to_audio prompt neg seed steps strength d w1) =
       (NewGenerator device, None) :: (ManualSeed seed, seeding_raised seed) :: rest1 /\
     events (video_to_audio video prompt neg seed steps strength d w1) =
       (NewGenerator device, None) :: (ManualSeed seed, seeding_raised seed) :: rest2) /\
  (forall p1 p2,
     result (text_to_audio prompt neg seed steps strength d w1) = Ok p1 ->
     result (text_to_audio prompt neg seed steps strength d w2) = Ok p2 ->
     written_audio (events (text_to_audio prompt neg seed steps strength d w1)) =
       written_audio (events (text_to_audio prompt neg seed steps strength d w2)) /\
     length (written_audio (events (text_to_audio prompt neg seed steps strength d w1))) =
       1%nat) /\
  (forall p1 p2,
     result (video_to_audio video prompt neg seed steps strength d w1) = Ok p1 ->
     result (video_to_audio video prompt neg seed steps strength d w2) = Ok p2 ->
     written_audio (events (video_to_audio video prompt neg seed steps strength d w1)) =
       written_audio (events (video_to_audio video prompt neg seed steps strength d w2)) /\
     length (written_audio (events (video_to_audio video prompt neg seed steps strength d w1))) =
       1%nat).
Proof.
  intros Hs Hm Hv.
  pose proof (text_args_same w1 w2 prompt neg seed steps strength d Hs Hm) as Ht.
  destruct (seeded_generator w1 seed Hs) as [Hrng Hseeding].
  unfold produced. rewrite !text_generate_calls, !video_generate_calls, Ht.
  split; [reflexivity|].
  split; [destruct (seed_accepted seed); reflexivity|].
  split.
  { rewrite <- Hv. destruct (seed_accepted seed); [|reflexivity].
    destruct (load_video (fs w1) video d) as [v|e]; [|reflexivity].
    now rewrite (video_args_same w1 w2 v _ _ _ _ _ Hs Hm). }
  split.
  { destruct (seed_accepted seed); [|constructor].
    destruct (load_video (fs w1) video d) as [v|e];
      repeat (constructor;
              [first [exact (proj1 (seeded_generator w1 seed Hs))
                     |exact (proj1 (seeded_generator w2 seed Hs))]|]);
      constructor. }
  split.
  { destruct (text_opens_with_rng prompt neg seed steps strength d w1) as [rest1 E1].
    destruct (video_opens_with_rng video prompt neg seed steps strength d w1) as [rest2 E2].
    rewrite Hseeding in E1, E2. eauto. }
  split.
  - intros p1 p2 E1 E2.
    destruct (text_written _ _ _ _ _ _ _ _ E1) as (a1 & r1 & Hg1 & ->).
    destruct (text_written _ _ _ _ _ _ _ _ E2) as (a2 & r2 & Hg2 & ->).
    rewrite Ht in Hg1. split; [congruence|reflexivity].
  - intros p1 p2 E1 E2.
    destruct (video_written _ _ _ _ _ _ _ _ _ E1) as (v1 & a1 & r1 & Hv1 & Hg1 & ->).
    destruct (video_written _ _ _ _ _ _ _ _ _ E2) as (v2 & a2 & r2 & Hv2 & Hg2 & ->).
    assert (v1 = v2) as -> by congruence.
    rewrite (video_args_same w1 w2 v2 _ _ _ _ _ Hs Hm) in Hg1.
    split; [congruence|reflexivity].
Qed.

(** How the seed is resolved: the first two steps of a request build a
    generator and seed it, from the seed when it is not negative and from
    the next word of the entropy source otherwise; only the latter takes a
    word from the source. *)
Lemma seed_resolution prompt neg seed steps strength d w :
  (exists rest,
     events (text_to_audio prompt neg seed steps strength d w) =
     (NewGenerator device, None) :: (seeding w seed, seeding_raised seed) :: rest) /\
  Forall (fun a => rng a = request_rng w seed)
    (generate_calls (events (text_to_audio prompt neg seed steps strength d w))) /\
  length (generate_calls (events (text_to_audio prompt neg seed steps strength d w))) =
    (if seed_accepted seed then 1 else 0)%nat /\
  entropy_reads (final (text_to_audio prompt neg seed steps strength d w)) =
    (if (0 <=? seed)%Z then entropy_reads w else S (entropy_reads w)).
Proof.
  split; [apply text_opens_with_rng|]. rewrite text_generate_calls. split; [|split].
  - destruct (seed_accepted seed); repeat constructor.
  - destruct (seed_accepted seed); reflexivity.
  - exec; reflexivity.
Qed.

Lemma seed_resolution_video video prompt neg seed steps strength d w :
  (exists rest,
     events (video_to_audio video prompt neg seed steps strength d w) =
     (NewGenerator device, None) :: (seeding w seed, seeding_raised seed) :: rest) /\
  Forall (fun a => rng a = request_rng w seed)
    (generate_calls (events (video_to_audio video prompt neg seed steps strength d w))) /\
  entropy_reads (final (video_to_audio video prompt neg seed steps strength d w)) =
    (if (0 <=? seed)%Z then entropy_reads w else S (entropy_reads w)).
Proof.
  split; [apply video_opens_with_rng|]. split.
  - rewrite video_generate_calls.
    destruct (seed_accepted seed); [|constructor].
    destruct (load_video (fs w) video d); repeat constructor.
  - exec; reflexivity.
Qed.

(** X11: two requests in a row with a negative seed seed their generators from
    two successive words of the entropy source. *)
Lemma negative_seed_successive_draws prompt neg seed steps strength d w :
  (seed < 0)%Z ->
  let first := text_to_audio prompt neg seed steps strength d w in
  let second := text_to_audio prompt neg seed steps strength d (final first) in
  (rng <$> generate_calls (events first)) =
    [{| gen_device := device; gen_state := seed_state device (entropy (entropy_reads w)) |}] /\
  (rng <$> generate_calls (events second)) =
    [{| gen_device := device;
        gen_state := seed_state device (entropy (S (entropy_reads w))) |}].
Proof.
  intros Hs first second. subst first second.
  assert (Hneg : (0 <=? seed)%Z = false) by now apply Z.leb_gt.
  rewrite !text_generate_calls, (seed_accepted_negative seed Hs).
  destruct (seed_resolution prompt neg seed steps strength d w) as (_ & _ & _ & He).
  rewrite Hneg in He. unfold text_args, request_rng. simpl. now rewrite Hneg, He.
Qed.

(** *** Requests that fail *)

Ltac settle E := solve [discriminate E | injection E as <-; repeat split].

(** X1: when [generate] raises, the request (its seeding accepted) fails
    with that exception after the shared configuration was changed: the
    sequence configuration keeps the duration of the failed request and the
    network its lengths; the file system is untouched, no directory is
    made, no file name is taken from the clock and nothing is logged. *)
Theorem failed_generation_keeps_new_configuration video prompt neg seed steps strength d w :
  seed_accepted seed = true ->
  (forall e,
     generate (text_args w prompt neg seed steps strength d) = Raise e ->
     result (text_to_audio prompt neg seed steps strength d w) = Raise e /\
     seq_cfg (model (final (text_to_audio prompt neg seed steps strength d w))) =
       set_duration (seq_cfg (model w)) d /\
     net (final (text_to_audio prompt neg seed steps strength d w)) =
       arg_net (text_args w prompt neg seed steps strength d) /\
     fs (final (text_to_audio prompt neg seed steps strength d w)) = fs w /\
     now_reads (final (text_to_audio prompt neg seed steps strength d w)) = now_reads w /\
     storage_steps (events (text_to_audio prompt neg seed steps strength d w)) = [] /\
     log_lines (events (text_to_audio prompt neg seed steps strength d w)) = []) /\
  (forall v e,
     load_video (fs w) video d = Ok v ->
     generate (video_args w v prompt neg seed steps strength) = Raise e ->
     result (video_to_audio video prompt neg seed steps strength d w) = Raise e /\
     seq_cfg (model (final (video_to_audio video prompt neg seed steps strength d w))) =
       set_duration (seq_cfg (model w)) (duration_sec v) /\
     net (final (video_to_audio video prompt neg seed steps strength d w)) =
       arg_net (video_args w v prompt neg seed steps strength) /\
     fs (final (video_to_audio video prompt neg seed steps strength d w)) = fs w /\
     now_reads (final (video_to_audio video prompt neg seed steps strength d w)) =
       now_reads w /\
     storage_steps (events (video_to_audio video prompt neg seed steps strength d w)) = [] /\
     log_lines (events (video_to_audio video prompt neg seed steps strength d w)) = []).
Proof.
  intros Hs. split.
  - intros e. revert Hs. unfold text_args, request_rng, lengths_for.
    exec; intros Hs Hg; try discriminate Hs; settle Hg.
  - intros v e Hv. revert Hs. unfold video_args, request_rng, lengths_for.
    exec_decoded Hv; intros Hs Hg; try discriminate Hs; settle Hg.
Qed.

(** X2: when the video cannot be decoded, [video_to_audio] (its seeding
    accepted) fails with the decoder's exception after three steps (the
    generator, its seeding, the decoding) and leaves the model
    configuration, the network, the file system and the clocks as they
    were. *)
Theorem failed_decode_changes_nothing video prompt neg seed steps strength d w e :
  seed_accepted seed = true ->
  load_video (fs w) video d = Raise e ->
  result (video_to_audio video prompt neg seed steps strength d w) = Raise e /\
  events (video_to_audio video prompt neg seed steps strength d w) =
    [(NewGenerator device, None); (seeding w seed, None); (LoadVideo video d, Some e)] /\
  model (final (video_to_audio video prompt neg seed steps strength d w)) = model w /\
  net (final (video_to_audio video prompt neg seed steps strength d w)) = net w /\
  fs (final (video_to_audio video prompt neg seed steps strength d w)) = fs w /\
  time_reads (final (video_to_audio video prompt neg seed steps strength d w)) =
    time_reads w /\
  now_reads (final (video_to_audio video prompt neg seed steps strength d w)) = now_reads w.
Proof.
  intros Hs Hv. revert Hs. unfold seeding.
  exec_decoded Hv; intros Hs; try discriminate Hs; repeat split.
Qed.

(** X3: when [generate] returns an empty batch, taking its element 0 fails:
    the request (its seeding accepted) ends with [IndexError], raised by no
    collaborator, after the elapsed time was logged and before any
    directory or file is made. *)
Theorem empty_batch_is_an_index_error video prompt neg seed steps strength d w :
  seed_accepted seed = true ->
  (generate (text_args w prompt neg seed steps strength d) = Ok [] ->
   result (text_to_audio prompt neg seed steps strength d w) = Raise IndexError /\
   failures (events (text_to_audio prompt neg seed steps strength d w)) = [] /\
   length (log_lines (events (text_to_audio prompt neg seed steps strength d w))) = 1%nat /\
   storage_steps (events (text_to_audio prompt neg seed steps strength d w)) = [] /\
   fs (final (text_to_audio prompt neg seed steps strength d w)) = fs w) /\
  (forall v,
     load_video (fs w) video d = Ok v ->
     generate (video_args w v prompt neg seed steps strength) = Ok [] ->
     result (video_to_audio video prompt neg seed steps strength d w) = Raise IndexError /\
     failures (events (video_to_audio video prompt neg seed steps strength d w)) = [] /\
     length (log_lines (events (video_to_audio video prompt neg seed steps strength d w))) =
       1%nat /\
     storage_steps (events (video_to_audio video prompt neg seed steps strength d w)) = [] /\
     fs (final (video_to_audio video prompt neg seed steps strength d w)) = fs w).
Proof.
  intros Hs. split.
  - revert Hs. unfold text_args, request_rng, lengths_for.
    exec; intros Hs Hg; try discriminate Hs; solve [discriminate Hg | repeat split].
  - intros v Hv. revert Hs. unfold video_args, request_rng, lengths_for.
    exec_decoded Hv; intros Hs Hg; try discriminate Hs;
      solve [discriminate Hg | repeat split].
Qed.

(** X4: of the batch [generate] returns, only element 0 reaches the writer,
    converted by [float()] and then [cpu()]: every writer call of the run
    is given that waveform alone, whatever else the batch holds. *)
Theorem first_waveform_is_written video prompt neg seed steps strength d w :
  (forall a rest,
     generate (text_args w prompt neg seed steps strength d) = Ok (a :: rest) ->
     Forall (fun t => t = [tensor_cpu (tensor_float a)])
       (written_audio (events (text_to_audio prompt neg seed steps strength d w)))) /\
  (forall v a rest,
     load_video (fs w) video d = Ok v ->
     generate (video_args w v prompt neg seed steps strength) = Ok (a :: rest) ->
     Forall (fun t => t = [tensor_cpu (tensor_float a)])
       (written_audio (events (video_to_audio video prompt neg seed steps strength d w)))).
Proof.
  split.
  - intros a rest. unfold text_args, request_rng, lengths_for.
    exec; intros Hg;
      first [discriminate Hg | injection Hg as <- <-; repeat constructor
            | repeat constructor].
  - intros v a rest Hv. unfold video_args, request_rng, lengths_for.
    exec_decoded Hv; intros Hg;
      first [discriminate Hg | injection Hg as <- <-; repeat constructor
            | repeat constructor].
Qed.

(** *** The output directory *)

Lemma Path_mkdir_taken_by_file (p : Path) (parents : bool) (f : FS) (b : Blob) :
  parts p <> [] -> f !! p = Some (File b) ->
  Path_mkdir p parents true f = Raise FileExistsError.
Proof.
  intros Hp Hf. unfold Path_mkdir. rewrite mkdir_from_eq. cbv zeta.
  rewrite Path_rev_rev.
  assert (He : exists_ f p = true).
  { unfold exists_. destruct (parts p); [congruence|]. now rewrite Hf. }
  assert (Hd : is_dir f p = false).
  { unfold is_dir. destruct (parts p); [congruence|]. now rewrite Hf. }
  now rewrite (os_mkdir_taken _ _ He), Hd.
Qed.

Lemma Path_mkdir_under_a_file (p : Path) (parents : bool) (f : FS) (b : Blob) :
  exists_ f p = false -> parts (Path_parent p) <> [] ->
  f !! Path_parent p = Some (File b) ->
  Path_mkdir p parents true f = Raise NotADirectoryError.
Proof.
  intros Hp Hq Hf. unfold Path_mkdir. rewrite mkdir_from_eq. cbv zeta.
  rewrite Path_rev_rev.
  assert (He : exists_ f (Path_parent p) = true).
  { unfold exists_. destruct (parts (Path_parent p)); [congruence|]. now rewrite Hf. }
  assert (Hd : is_dir f (Path_parent p) = false).
  { unfold is_dir. destruct (parts (Path_parent p)); [congruence|]. now rewrite Hf. }
  assert (Hn : is_dir f p = false).
  { destruct (is_dir f p) eqn:Hdir; [|reflexivity].
    apply is_dir_exists in Hdir. congruence. }
  unfold os_mkdir. now rewrite Hp, Hd, He, Hn.
Qed.

Lemma text_mkdir_failure prompt neg seed steps strength d w a rest e :
  seed_accepted seed = true ->
  generate (text_args w prompt neg seed steps strength d) = Ok (a :: rest) ->
  Path_mkdir (output_dir w) true true (fs w) = Raise e ->
  result (text_to_audio prompt neg seed steps strength d w) = Raise e /\
  writes (events (text_to_audio prompt neg seed steps strength d w)) = [] /\
  fs (final (text_to_audio prompt neg seed steps strength d w)) = fs w.
Proof.
  unfold text_args, request_rng, lengths_for.
  exec; intros Hs Hg Hm; try discriminate Hs; try discriminate Hg; try discriminate Hm;
    injection Hm as <-; repeat split.
Qed.

Lemma video_mkdir_failure video prompt neg seed steps strength d w v a rest e :
  seed_accepted seed = true ->
  load_video (fs w) video d = Ok v ->
  generate (video_args w v prompt neg seed steps strength) = Ok (a :: rest) ->
  Path_mkdir (output_dir w) true true (fs w) = Raise e ->
  result (video_to_audio video prompt neg seed steps strength d w) = Raise e /\
  writes (events (video_to_audio video prompt neg seed steps strength d w)) = [] /\
  fs (final (video_to_audio video prompt neg seed steps strength d w)) = fs w.
Proof.
  intros Hs Hv. revert Hs. unfold video_args, request_rng, lengths_for.
  exec_decoded Hv; intros Hs Hg Hm; try discriminate Hs; try discriminate Hg;
    try discriminate Hm; injection Hm as <-; repeat split.
Qed.

Lemma handle_generated (r : Request) (w : World) (a : Waveform) (rest : list Waveform) :
  produced (events (handle r w)) = [Ok (a :: rest)] ->
  seed_accepted (request_seed r) = true /\
  match r with
  | VideoToAudio video prompt neg seed steps strength d =>
      exists v, load_video (fs w) video d = Ok v /\
                generate (video_args w v prompt neg seed steps strength) = Ok (a :: rest)
  | TextToAudio prompt neg seed steps strength d =>
      generate (text_args w prompt neg seed steps strength d) = Ok (a :: rest)
  end.
Proof.
  unfold produced.
  destruct r as [video prompt neg seed steps strength d|prompt neg seed steps strength d];
    simpl.
  - rewrite video_generate_calls.
    destruct (seed_accepted seed); [|discriminate].
    destruct (load_video (fs w) video d) as [v|e]; [|discriminate].
    intros [= Hg]. eauto.
  - rewrite text_generate_calls.
    destruct (seed_accepted seed); [|discriminate].
    now intros [= Hg].
Qed.

Lemma handle_mkdir_failure (r : Request) (w : World) (a : Waveform) (rest : list Waveform)
    (e : Exn) :
  produced (events (handle r w)) = [Ok (a :: rest)] ->
  Path_mkdir (output_dir w) true true (fs w) = Raise e ->
  result (handle r w) = Raise e /\
  writes (events (handle r w)) = [] /\
  fs (final (handle r w)) = fs w.
Proof.
  intros Hg Hm. apply handle_generated in Hg. destruct Hg as [Hs Hg]. destruct r.
  - destruct Hg as (v & Hv & Hg). now apply (video_mkdir_failure _ _ _ _ _ _ _ _ v a rest).
  - now apply (text_mkdir_failure _ _ _ _ _ _ _ a rest).
Qed.

(** X5: when the name of the output directory is taken by a regular file, a
    request of either kind whose generation succeeded fails afterwards
    with [FileExistsError], [exist_ok=True] notwithstanding; when the
    parent of the output directory is a regular file it fails with
    [NotADirectoryError]. Either way no writer is called and the file
    system is left as it was. *)
Theorem output_dir_taken_by_a_file (r : Request) (w : World) (a : Waveform)
    (rest : list Waveform) (b : Blob) :
  produced (events (handle r w)) = [Ok (a :: rest)] ->
  (parts (output_dir w) <> [] ->
   fs w !! output_dir w = Some (File b) ->
   result (handle r w) = Raise FileExistsError /\
   writes (events (handle r w)) = [] /\
   fs (final (handle r w)) = fs w) /\
  (exists_ (fs w) (output_dir w) = false ->
   parts (Path_parent (output_dir w)) <> [] ->
   fs w !! Path_parent (output_dir w) = Some (File b) ->
   result (handle r w) = Raise NotADirectoryError /\
   writes (events (handle r w)) = [] /\
   fs (final (handle r w)) = fs w).
Proof.
  intros Hg. split.
  - intros Hp Hf. apply (handle_mkdir_failure r w a rest _ Hg).
    now apply (Path_mkdir_taken_by_file _ _ _ b).
  - intros He Hp Hf. apply (handle_mkdir_failure r w a rest _ Hg).
    now apply (Path_mkdir_under_a_file _ _ _ b).
Qed.
(** *** File names *)

Lemma digit_mod (a b : nat) : digit a = digit b -> a mod 10 = b mod 10.
Proof.
  unfold digit. intros E. apply (f_equal nat_of_ascii) in E.
  pose proof (Nat.mod_upper_bound a 10 ltac:(discriminate)).
  pose proof (Nat.mod_upper_bound b 10 ltac:(discriminate)).
  rewrite !nat_ascii_embedding in E by lia. lia.
Qed.

Ltac split_digits n :=
  pose proof (Nat.div_mod_eq n 10);
  pose proof (Nat.mod_upper_bound n 10 ltac:(discriminate)).

Lemma two_digits (n m : nat) :
  (Z.of_nat n <= 99)%Z -> (Z.of_nat m <= 99)%Z ->
  (n / 10) mod 10 = (m / 10) mod 10 -> n mod 10 = m mod 10 -> n = m.
Proof.
  intros Hn Hm E1 E0.
  split_digits n. split_digits m. split_digits (n / 10). split_digits (m / 10).
  lia.
Qed.

Lemma four_digits (n m : nat) :
  (Z.of_nat n <= 9999)%Z -> (Z.of_nat m <= 9999)%Z ->
  (n / 1000) mod 10 = (m / 1000) mod 10 -> (n / 100) mod 10 = (m / 100) mod 10 ->
  (n / 10) mod 10 = (m / 10) mod 10 -> n mod 10 = m mod 10 -> n = m.
Proof.
  intros Hn Hm.
  replace (n / 1000) with (n / 10 / 10 / 10) by (rewrite !Nat.Div0.div_div; reflexivity).
  replace (m / 1000) with (m / 10 / 10 / 10) by (rewrite !Nat.Div0.div_div; reflexivity).
  replace (n / 100) with (n / 10 / 10) by (rewrite !Nat.Div0.div_div; reflexivity).
  replace (m / 100) with (m / 10 / 10) by (rewrite !Nat.Div0.div_div; reflexivity).
  intros E3 E2 E1 E0.
  split_digits n. split_digits m. split_digits (n / 10). split_digits (m / 10).
  split_digits (n / 10 / 10). split_digits (m / 10 / 10).
  split_digits (n / 10 / 10 / 10). split_digits (m / 10 / 10 / 10).
  lia.
Qed.

Lemma valid_datetime_bounds (t : DateTime) :
  valid_datetime t = true ->
  (Z.of_nat (year t) <= 9999)%Z /\ (Z.of_nat (month t) <= 99)%Z /\
  (Z.of_nat (day t) <= 99)%Z /\ (Z.of_nat (hour t) <= 99)%Z /\
  (Z.of_nat (minute t) <= 99)%Z /\ (Z.of_nat (second t) <= 99)%Z.
Proof.
  unfold valid_datetime. rewrite !andb_true_iff, !Z.leb_le. lia.
Qed.

(** Two names made by the handlers are equal only when the extensions
    are the same and the clock readings agree field by field. *)
Lemma stamped_name_inj (t1 t2 : DateTime) (r1 r2 : Request) :
  valid_datetime t1 = true -> valid_datetime t2 = true ->
  (strftime "%Y%m%d_%H%M%S" t1 ++ extension r1)%string =
  (strftime "%Y%m%d_%H%M%S" t2 ++ extension r2)%string ->
  extension r1 = extension r2 /\ to_second t1 = to_second t2.
Proof.
  intros V1 V2 E.
  apply valid_datetime_bounds in V1 as (Y1 & M1 & D1 & h1 & m1 & s1).
  apply valid_datetime_bounds in V2 as (Y2 & M2 & D2 & h2 & m2 & s2).
  rewrite !strftime_stamp in E.
  assert (Hs : extension r1 = extension r2 /\
    digit (year t1 / 1000) = digit (year t2 / 1000) /\
    digit (year t1 / 100) = digit (year t2 / 100) /\
    digit (year t1 / 10) = digit (year t2 / 10) /\
    digit (year t1) = digit (year t2) /\
    digit (month t1 / 10) = digit (month t2 / 10) /\ digit (month t1) = digit (month t2) /\
    digit (day t1 / 10) = digit (day t2 / 10) /\ digit (day t1) = digit (day t2) /\
    digit (hour t1 / 10) = digit (hour t2 / 10) /\ digit (hour t1) = digit (hour t2) /\
    digit (minute t1 / 10) = digit (minute t2 / 10) /\
    digit (minute t1) = digit (minute t2) /\
    digit (second t1 / 10) = digit (second t2 / 10) /\
    digit (second t1) = digit (second t2)).
  { destruct r1, r2; cbv [pad4 pad2 String.append extension] in E;
      injection E; intros; repeat split; congruence. }
  destruct Hs as (He & y3 & y2 & y1 & y0 & mo1 & mo0 & d1 & d0 & ho1 & ho0 & mi1 & mi0
                  & se1 & se0).
  split; [exact He|].
  apply digit_mod in y3, y2, y1, y0, mo1, mo0, d1, d0, ho1, ho0, mi1, mi0, se1, se0.
  unfold to_second.
  rewrite (four_digits _ _ Y1 Y2 y3 y2 y1 y0), (two_digits _ _ M1 M2 mo1 mo0),
    (two_digits _ _ D1 D2 d1 d0), (two_digits _ _ h1 h2 ho1 ho0),
    (two_digits _ _ m1 m2 mi1 mi0), (two_digits _ _ s1 s2 se1 se0).
  reflexivity.
Qed.

Lemma stamp_of_second (t1 t2 : DateTime) :
  to_second t1 = to_second t2 ->
  strftime "%Y%m%d_%H%M%S" t1 = strftime "%Y%m%d_%H%M%S" t2.
Proof.
  unfold to_second. intros [= Hy Hm Hd Hh Hn Hs].
  rewrite !strftime_stamp. congruence.
Qed.

Lemma extension_plain (r : Request) :
  forallb (fun c => negb (Ascii.eqb c slash)) (list_ascii_of_string (extension r)) = true.
Proof. destruct r; reflexivity. Qed.

Lemma handle_success_path (r : Request) (w : World) (p : Path) :
  result (handle r w) = Ok p ->
  p = Path_div (output_dir w)
        (strftime "%Y%m%d_%H%M%S" (datetime_now (now_reads w)) ++ extension r).
Proof.
  destruct r as [video prompt neg seed steps strength d|prompt neg seed steps strength d];
    simpl; intros Hr.
  - destruct (video_success _ _ _ _ _ _ _ _ _ Hr)
      as (v & a & rest & fs1 & _ & _ & _ & _ & Hp & _).
    exact Hp.
  - destruct (text_success _ _ _ _ _ _ _ _ Hr) as (a & rest & fs1 & _ & _ & _ & Hp & _).
    exact Hp.
Qed.

(** X6: two successful requests, in any two states of the process with the
    same output directory, return the same path exactly when they are of
    the same kind and their clock readings fall in the same second: within
    one second a later artifact of the same kind takes the place of the
    earlier one, a video and an audio artifact never meet, and artifacts
    of different seconds never meet. *)
Theorem artifact_paths_meet_in_the_same_second (r1 r2 : Request) (w1 w2 : World)
    (p1 p2 : Path) :
  result (handle r1 w1) = Ok p1 ->
  result (handle r2 w2) = Ok p2 ->
  output_dir w1 = output_dir w2 ->
  valid_datetime (datetime_now (now_reads w1)) = true ->
  valid_datetime (datetime_now (now_reads w2)) = true ->
  (p1 = p2 <->
   extension r1 = extension r2 /\
   to_second (datetime_now (now_reads w1)) = to_second (datetime_now (now_reads w2))).
Proof.
  intros H1 H2 Hd V1 V2.
  apply handle_success_path in H1, H2. subst p1 p2.
  rewrite !Path_div_plain by (apply stamp_plain, extension_plain).
  rewrite Hd. split.
  - intros E. apply (f_equal parts) in E. cbn [parts] in E.
    apply app_inv_head in E.
    assert (En : forall a b : string, [a] = [b] -> a = b) by (intros a b [= ->]; reflexivity).
    exact (stamped_name_inj _ _ _ _ V1 V2 (En _ _ E)).
  - intros (He & Hs). now rewrite He, (stamp_of_second _ _ Hs).
Qed.

(** *** Requests one after another *)

Lemma handle_in_step (r : Request) (w : World) :
  (in_step w -> in_step (final (handle r w))) /\
  (assigned_durations (events (handle r w)) <> [] -> in_step (final (handle r w))).
Proof.
  unfold in_step.
  destruct r as [video prompt neg seed steps strength d|prompt neg seed steps strength d];
    simpl; split; exec; intros Hw; solve [exact Hw | repeat split | contradiction].
Qed.

Lemma after_in_step (rs : list Request) (w : World) : in_step w -> in_step (after rs w).
Proof.
  revert w. induction rs as [|r rs IH]; intros w Hw; [exact Hw|].
  simpl. apply IH. exact (proj1 (handle_in_step r w) Hw).
Qed.

(** X7: the network never runs out of step with the sequence configuration:
    if its lengths are those of the configuration, they still are after
    any requests, failed ones included; and once a request has assigned a
    duration they are, whatever the state was before. *)
Theorem lengths_follow_the_configuration (r : Request) (rs : list Request) (w : World) :
  (in_step w -> in_step (after rs w)) /\
  (assigned_durations (events (handle r w)) <> [] ->
   in_step (after rs (final (handle r w)))).
Proof.
  split; [apply after_in_step|].
  intros Ha. apply after_in_step. exact (proj2 (handle_in_step r w) Ha).
Qed.

Lemma handle_same_setup (r : Request) (w : World) : same_setup w (final (handle r w)).
Proof.
  unfold same_setup.
  destruct r as [video prompt neg seed steps strength d|prompt neg seed steps strength d];
    simpl; exec; repeat split.
Qed.

Lemma same_setup_trans (w1 w2 w3 : World) :
  same_setup w1 w2 -> same_setup w2 w3 -> same_setup w1 w3.
Proof.
  intros (A1 & A2 & A3 & A4) (B1 & B2 & B3 & B4). unfold same_setup.
  repeat split; congruence.
Qed.

Lemma after_same_setup (rs : list Request) (w : World) : same_setup w (after rs w).
Proof.
  revert w. induction rs as [|r rs IH]; intros w; [repeat split|].
  simpl. eapply same_setup_trans; [apply handle_same_setup | apply IH].
Qed.

Lemma same_setup_model (w w' : World) : same_setup w w' -> same_model w' w.
Proof.
  intros (A1 & A2 & A3 & A4). unfold same_model.
  pose proof (A4 (duration (seq_cfg (model w)))) as E.
  apply (f_equal seq_cfg) in E. simpl in E.
  repeat split; trivial.
  - now apply (f_equal sampling_rate) in E.
  - now apply (f_equal seq_params) in E.
Qed.

Lemma serve_uses_setup (rs : list Request) (w w0 : World) :
  same_setup w w0 ->
  Forall (fun run =>
            Forall (fun a => weights (arg_net a) = weights (net w) /\
                             arg_feature_utils a = feature_utils w)
                   (generate_calls (events run)))
         (serve rs w0).
Proof.
  revert w0. induction rs as [|r rs IH]; intros w0 Hs; [constructor|].
  simpl. constructor.
  - destruct Hs as (A1 & A2 & _).
    destruct r as [video prompt neg seed steps strength d|prompt neg seed steps strength d];
      simpl.
    + rewrite video_generate_calls.
      destruct (seed_accepted seed); [|constructor].
      destruct (load_video (fs w0) video d); repeat constructor; simpl; assumption.
    + rewrite text_generate_calls.
      destruct (seed_accepted seed); repeat constructor; simpl; assumption.
  - apply IH. eapply same_setup_trans; [exact Hs | apply handle_same_setup].
Qed.

(** X8: what is set up at process start stays as it is through any requests:
    the weights, the feature network, the output directory and every
    field of the model configuration but the duration. *)
Theorem requests_keep_the_setup (rs : list Request) (w : World) :
  same_setup w (after rs w) /\
  Forall (fun run =>
            Forall (fun a => weights (arg_net a) = weights (net w) /\
                             arg_feature_utils a = feature_utils w)
                   (generate_calls (events run)))
         (serve rs w).
Proof.
  split; [apply after_same_setup|].
  apply serve_uses_setup. repeat split.
Qed.

(** X9: modulo the decoding of its video, what a request with a seed that is
    not negative has [generate] produce does not depend on the requests
    handled before it. *)
Theorem seeded_request_ignores_history (r : Request) (rs1 rs2 : list Request) (w : World) :
  (0 <= request_seed r)%Z ->
  match r with
  | VideoToAudio video _ _ _ _ _ d =>
      load_video (fs (after rs1 w)) video d = load_video (fs (after rs2 w)) video d
  | TextToAudio _ _ _ _ _ _ => True
  end ->
  produced (events (handle r (after rs1 w))) = produced (events (handle r (after rs2 w))).
Proof.
  intros Hs Hv.
  assert (Hm : same_model (after rs1 w) (after rs2 w)).
  { pose proof (same_setup_model _ _ (after_same_setup rs1 w)) as (A1 & A2 & A3 & A4).
    pose proof (same_setup_model _ _ (after_same_setup rs2 w)) as (B1 & B2 & B3 & B4).
    unfold same_model. repeat split; congruence. }
  unfold produced.
  destruct r as [video prompt neg seed steps strength d|prompt neg seed steps strength d];
    simpl in *.
  - rewrite !video_generate_calls, Hv.
    destruct (seed_accepted seed); [|reflexivity].
    destruct (load_video (fs (after rs2 w)) video d) as [v|e]; [|reflexivity].
    now rewrite (video_args_same _ _ v _ _ _ _ _ Hs Hm).
  - rewrite !text_generate_calls. now rewrite (text_args_same _ _ _ _ _ _ _ _ Hs Hm).
Qed.

Lemma handle_entropy (r : Request) (w : World) :
  entropy_reads (final (handle r w)) =
  (entropy_reads w + if (request_seed r <? 0)%Z then 1 else 0)%nat.
Proof.
  destruct r as [video prompt neg seed steps strength d|prompt neg seed steps strength d];
    simpl; rewrite Z.ltb_antisym; exec; simpl; lia.
Qed.

(** X10: the entropy source is read once by each request that asks for a
    random seed, whether the request then succeeds or not, and by nothing
    else: after any requests its position has advanced by their number. *)
Theorem entropy_words_taken (rs : list Request) (w : World) :
  entropy_reads (after rs w) = (entropy_reads w + random_seeds rs)%nat.
Proof.
  revert w. unfold random_seeds.
  induction rs as [|r rs IH]; intros w; simpl; [lia|].
  rewrite IH, handle_entropy.
  destruct (request_seed r <? 0)%Z; simpl; lia.
Qed.

End Properties.

(** ** Process start *)

Section StartFacts.
Context `{Library} {loader : Loader}.

Ltac start_exec :=
  unfold loaded, get_model, start_bind, start_step; cbn;
  repeat (match goal with
          | |- context [match ?x with Ok _ => _ | Raise _ => _ end] =>
              destruct x eqn:?
          end; cbn).


Lemma loaded_world (m : ModelConfig) (f : FS) (w0 : World) :
  snd (loaded m f) = Ok w0 ->
  exists n u,
    snd (get_model m f) = Ok (n, u, seq_cfg m) /\
    w0 = {| model := m; net := n; feature_utils := u;
            output_dir := configured_output_dir; fs := f;
            entropy_reads := 0; time_reads := 0; now_reads := 0 |}.
Proof.
  start_exec; intros Hr; try discriminate Hr.
  injection Hr as <-. do 2 eexists. split; reflexivity.
Qed.

(** X14: every request handled after the module is loaded runs [generate] on
    the weights and the feature network that [get_model] returned, and the
    sequence configuration the handlers write to is the one held by the
    model configuration [get_model] read: the model is loaded once, and
    what is loaded is what is used. *)
Theorem requests_run_on_the_loaded_model (m : ModelConfig) (f : FS) (w0 : World)
    (rs : list Request) :
  snd (loaded m f) = Ok w0 ->
  exists n u,
    snd (get_model m f) = Ok (n, u, seq_cfg m) /\
    model w0 = m /\
    output_dir w0 = configured_output_dir /\
    Forall (fun run =>
              Forall (fun a => weights (arg_net a) = weights n /\ arg_feature_utils a = u)
                     (generate_calls (events run)))
           (serve rs w0) /\
    weights (net (after rs w0)) = weights n /\
    feature_utils (after rs w0) = u /\
    forall d, set_seq_cfg (model (after rs w0)) (set_duration (seq_cfg (model (after rs w0))) d) =
              set_seq_cfg m (set_duration (seq_cfg m) d).
Proof.
  intros Hl. destruct (loaded_world m f w0 Hl) as (n & u & Hg & ->).
  exists n, u. split; [exact Hg|]. split; [reflexivity|]. split; [reflexivity|].
  split.
  - apply (serve_uses_setup rs
             {| model := m; net := n; feature_utils := u;
                output_dir := configured_output_dir; fs := f;
                entropy_reads := 0; time_reads := 0; now_reads := 0 |}).
    repeat split.
  - pose proof (after_same_setup rs
             {| model := m; net := n; feature_utils := u;
                output_dir := configured_output_dir; fs := f;
                entropy_reads := 0; time_reads := 0; now_reads := 0 |}) as (A1 & A2 & _ & A4).
    repeat split; assumption.
Qed.

End StartFacts.

(** ** The handlers on the small instance *)

Import Demo.

Lemma demo_clips_to_source : clips_to_source Demo.length_of Qlt.
Proof.
  intros f video requested v Hv Hlt.
  unfold Demo.length_of in *. simpl in Hv. unfold Demo.demo_load_video in Hv.
  destruct (f !! Path_of video) as [[|b]|]; try discriminate Hv.
  injection Hv as <-. simpl.
  destruct (Qle_bool requested (inject_Z (Z.of_nat (length b)))) eqn:Hle; [|reflexivity].
  apply Qle_bool_iff in Hle. exfalso. exact (Qlt_not_le _ _ Hlt Hle).
Qed.

Lemma demo_one_waveform_per_prompt : one_waveform_per_prompt.
Proof.
  intros a audios. simpl. unfold Demo.demo_generate.
  destruct (num_steps (fm a) <? 0)%Z; [discriminate|].
  intros [= <-]. apply length_map.
Qed.

(** The example of the specification, seed 42, run in two different states
    of the process; and a three-second clip with eight seconds requested. *)
Lemma fixed_seed_same_waveform_witness :
  (0 <= 42)%Z /\
  same_model world0 world1 /\
  load_video (fs world0) "clip.mp4" 8%Q = load_video (fs world1) "clip.mp4" 8%Q /\
  produced (events (text_to_audio "rain on a window" "music" 42 25 (9 # 2)%Q 8%Q world0)) =
    produced (events (text_to_audio "rain on a window" "music" 42 25 (9 # 2)%Q 8%Q world1)) /\
  produced (events (video_to_audio "clip.mp4" "rain on a window" "music" 42 25 (9 # 2)%Q 8%Q
                      world0)) =
    produced (events (video_to_audio "clip.mp4" "rain on a window" "music" 42 25 (9 # 2)%Q 8%Q
                        world1)) /\
  result (text_to_audio "rain on a window" "music" 42 25 (9 # 2)%Q 8%Q world0) =
    Ok {| anchored := false; parts := ["output"; "gradio"; "20261103_090507.flac"] |} /\
  result (text_to_audio "rain on a window" "music" 42 25 (9 # 2)%Q 8%Q world1) =
    Ok {| anchored := false; parts := ["output"; "gradio"; "20261103_090510.flac"] |} /\
  written_audio (events (text_to_audio "rain on a window" "music" 42 25 (9 # 2)%Q 8%Q world0)) =
    written_audio (events (text_to_audio "rain on a window" "music" 42 25 (9 # 2)%Q 8%Q world1)).
Proof.
  assert (Hs : (0 <= 42)%Z) by lia.
  assert (Hm : same_model world0 world1) by (repeat split).
  assert (Hv : load_video (fs world0) "clip.mp4" 8%Q = load_video (fs world1) "clip.mp4" 8%Q)
    by (vm_compute; reflexivity).
  assert (H0 : result (text_to_audio "rain on a window" "music" 42 25 (9 # 2)%Q 8%Q world0) =
    Ok {| anchored := false; parts := ["output"; "gradio"; "20261103_090507.flac"] |})
    by (vm_compute; reflexivity).
  assert (H1 : result (text_to_audio "rain on a window" "music" 42 25 (9 # 2)%Q 8%Q world1) =
    Ok {| anchored := false; parts := ["output"; "gradio"; "20261103_090510.flac"] |})
    by (vm_compute; reflexivity).
  pose proof (fixed_seed_same_waveform "clip.mp4" "rain on a window" "music" 42 25 (9 # 2)%Q
                8%Q world0 world1 Hs Hm Hv) as (Ht & _ & Hp & _ & _ & Hw & _).
  destruct (Hw _ _ H0 H1) as (Hsame & _).
  repeat split; assumption.
Defined.

Lemma video_duration_is_decoded_duration_witness :
  load_video (fs world0) "clip.mp4" 8%Q =
    Ok {| clip_frames := [1; 2; 3]%Z; sync_frames := [1; 2; 3]%Z;
          duration_sec := 3%Q; video_meta := "clip.mp4" |} /\
  clips_to_source Demo.length_of Qlt /\
  (Demo.length_of (fs world0) "clip.mp4" < 8)%Q /\
  seed_accepted 42 = true /\
  assigned_durations
    (events (video_to_audio "clip.mp4" "rain" "music" 42 25 (9 # 2)%Q 8%Q world0)) =
    [Demo.length_of (fs world0) "clip.mp4"] /\
  duration (seq_cfg (model (final (video_to_audio "clip.mp4" "rain" "music" 42 25 (9 # 2)%Q
                                     8%Q world0)))) = 3%Q.
Proof.
  assert (Hv : load_video (fs world0) "clip.mp4" 8%Q =
               Ok {| clip_frames := [1; 2; 3]%Z; sync_frames := [1; 2; 3]%Z;
                     duration_sec := 3%Q; video_meta := "clip.mp4" |})
    by (vm_compute; reflexivity).
  assert (Hlt : (Demo.length_of (fs world0) "clip.mp4" < 8)%Q) by (vm_compute; reflexivity).
  assert (Hs : seed_accepted 42 = true) by reflexivity.
  pose proof (video_duration_is_decoded_duration Demo.length_of Qlt "clip.mp4" "rain" "music"
                42 25 (9 # 2)%Q 8%Q world0 _ Hv) as (_ & Hclip).
  destruct (Hclip demo_clips_to_source Hlt Hs) as (Ha & Hd & _).
  split; [exact Hv|]. split; [exact demo_clips_to_source|]. split; [exact Hlt|].
  split; [exact Hs|]. split; [exact Ha|]. exact Hd.
Defined.

Lemma artifact_written_under_output_dir_witness :
  result (text_to_audio "rain on a window" "music" 42 25 (9 # 2)%Q 8%Q world0) =
    Ok {| anchored := false; parts := ["output"; "gradio"; "20261103_090507.flac"] |} /\
  materialized world0
    (text_to_audio "rain on a window" "music" 42 25 (9 # 2)%Q 8%Q world0)
    {| anchored := false; parts := ["output"; "gradio"; "20261103_090507.flac"] |}
    "20261103_090507.flac" /\
  result (video_to_audio "clip.mp4" "rain" "music" 42 25 (9 # 2)%Q 8%Q world1) =
    Ok {| anchored := false; parts := ["output"; "gradio"; "20261103_090510.mp4"] |} /\
  materialized world1
    (video_to_audio "clip.mp4" "rain" "music" 42 25 (9 # 2)%Q 8%Q world1)
    {| anchored := false; parts := ["output"; "gradio"; "20261103_090510.mp4"] |}
    "20261103_090510.mp4".
Proof.
  assert (Ht : result (text_to_audio "rain on a window" "music" 42 25 (9 # 2)%Q 8%Q world0) =
               Ok {| anchored := false;
                     parts := ["output"; "gradio"; "20261103_090507.flac"] |})
    by (vm_compute; reflexivity).
  assert (Hv : result (video_to_audio "clip.mp4" "rain" "music" 42 25 (9 # 2)%Q 8%Q world1) =
               Ok {| anchored := false;
                     parts := ["output"; "gradio"; "20261103_090510.mp4"] |})
    by (vm_compute; reflexivity).
  split; [exact Ht|]. split.
  - exact (proj2 (proj2 (artifact_written_under_output_dir "clip.mp4" "rain on a window" "music"
                           42 25 (9 # 2)%Q 8%Q world0)) _ Ht).
  - split; [exact Hv|].
    exact (proj1 (proj2 (artifact_written_under_output_dir "clip.mp4" "rain" "music"
                           42 25 (9 # 2)%Q 8%Q world1)) _ Hv).
Defined.

Lemma generate_call_shape_witness :
  one_waveform_per_prompt /\
  generate (text_args world0 "rain on a window" "music" 42 25 (9 # 2)%Q 8%Q) =
    Ok [[42; 25; 352800]%Z] /\
  Forall (fun a =>
            generation_outcome world0
              (text_to_audio "rain on a window" "music" 42 25 (9 # 2)%Q 8%Q world0) a /\
            forall audios, generate a = Ok audios -> length audios = 1%nat)
    (generate_calls
       (events (text_to_audio "rain on a window" "music" 42 25 (9 # 2)%Q 8%Q world0))).
Proof.
  assert (Hg : generate (text_args world0 "rain on a window" "music" 42 25 (9 # 2)%Q 8%Q) =
               Ok [[42; 25; 352800]%Z]) by (vm_compute; reflexivity).
  split; [exact demo_one_waveform_per_prompt|]. split; [exact Hg|].
  exact (proj1 (proj2 (proj2 (proj2 (proj2
           (generate_call_shape "clip.mp4" "rain on a window" "music" 42 25 (9 # 2)%Q 8%Q
              world0))))
           demo_one_waveform_per_prompt)).
Defined.


Lemma text_to_audio_keeps_requested_duration_witness :
  seed_accepted 42 = true /\
  assigned_durations (events (text_to_audio "rain" "music" 42 25 (9 # 2)%Q 8%Q world1)) =
    [8%Q] /\
  duration (seq_cfg (model (final (text_to_audio "rain" "music" 42 25 (9 # 2)%Q 8%Q world1)))) =
    8%Q.
Proof.
  assert (Hs : seed_accepted 42 = true) by reflexivity.
  destruct (@text_to_audio_keeps_requested_duration _ Demo.library "rain" "music" 42 25
              (9 # 2)%Q 8%Q world1 Hs) as (Ha & Hd & _).
  split; [exact Hs|]. split; [exact Ha|exact Hd].
Defined.

(** A seed of 2**64: the request raises in [manual_seed], assigns no
    duration, and the sequence configuration keeps the three seconds an
    earlier request left, not the eight requested. *)
Lemma text_to_audio_keeps_requested_duration_counterexample :
  result (text_to_audio "rain" "music" (2 ^ 64) 25 (9 # 2)%Q 8%Q world1) =
    Raise (External "ValueError") /\
  assigned_durations
    (events (text_to_audio "rain" "music" (2 ^ 64) 25 (9 # 2)%Q 8%Q world1)) = [] /\
  duration
    (seq_cfg (model (final (text_to_audio "rain" "music" (2 ^ 64) 25 (9 # 2)%Q 8%Q world1)))) =
    3%Q /\
  duration
    (seq_cfg (model (final (text_to_audio "rain" "music" (2 ^ 64) 25 (9 # 2)%Q 8%Q world1)))) <>
    8%Q.
Proof.
  split; [reflexivity|]. split; [reflexivity|]. split; [reflexivity|].
  vm_compute. discriminate.
Qed.

(** ** More runs on the small instance *)

Import DemoStart.

Lemma failed_generation_keeps_new_configuration_witness :
  seed_accepted 42 = true /\
  generate (text_args world1 "rain" "music" 42 (-1) (9 # 2)%Q 8%Q) =
    Raise (External "OutOfMemoryError") /\
  result (text_to_audio "rain" "music" 42 (-1) (9 # 2)%Q 8%Q world1) =
    Raise (External "OutOfMemoryError") /\
  seq_cfg (model (final (text_to_audio "rain" "music" 42 (-1) (9 # 2)%Q 8%Q world1))) =
    set_duration (seq_cfg (model world1)) 8%Q /\
  fs (final (text_to_audio "rain" "music" 42 (-1) (9 # 2)%Q 8%Q world1)) = fs world1.
Proof.
  assert (Hg : generate (text_args world1 "rain" "music" 42 (-1) (9 # 2)%Q 8%Q) =
               Raise (External "OutOfMemoryError")) by (vm_compute; reflexivity).
  assert (Hs : seed_accepted 42 = true) by reflexivity.
  destruct (proj1 (@failed_generation_keeps_new_configuration _ Demo.library "clip.mp4" "rain"
                     "music" 42 (-1) (9 # 2)%Q 8%Q world1 Hs) _ Hg) as (Hr & Hc & _ & Hf & _).
  repeat split; assumption.
Defined.

Lemma failed_decode_changes_nothing_witness :
  seed_accepted (-1) = true /\
  load_video (fs world1) "missing.mp4" 8%Q = Raise (External "DecodeError") /\
  result (video_to_audio "missing.mp4" "rain" "music" (-1) 25 (9 # 2)%Q 8%Q world1) =
    Raise (External "DecodeError") /\
  model (final (video_to_audio "missing.mp4" "rain" "music" (-1) 25 (9 # 2)%Q 8%Q world1)) =
    model world1 /\
  net (final (video_to_audio "missing.mp4" "rain" "music" (-1) 25 (9 # 2)%Q 8%Q world1)) =
    net world1.
Proof.
  assert (Hv : load_video (fs world1) "missing.mp4" 8%Q = Raise (External "DecodeError"))
    by (vm_compute; reflexivity).
  assert (Hs : seed_accepted (-1) = true) by reflexivity.
  destruct (@failed_decode_changes_nothing _ Demo.library "missing.mp4" "rain" "music" (-1) 25
              (9 # 2)%Q 8%Q world1 _ Hs Hv) as (Hr & _ & Hm & Hn & _).
  repeat split; assumption.
Defined.

Lemma empty_batch_is_an_index_error_witness :
  seed_accepted 42 = true /\
  @generate _ DemoEmpty.library
    (@text_args _ DemoEmpty.library world0 "rain" "music" 42 25 (9 # 2)%Q 8%Q) = Ok [] /\
  result (@text_to_audio _ DemoEmpty.library "rain" "music" 42 25 (9 # 2)%Q 8%Q world0) =
    Raise IndexError /\
  storage_steps
    (events (@text_to_audio _ DemoEmpty.library "rain" "music" 42 25 (9 # 2)%Q 8%Q world0)) =
    [].
Proof.
  assert (Hg : @generate _ DemoEmpty.library
    (@text_args _ DemoEmpty.library world0 "rain" "music" 42 25 (9 # 2)%Q 8%Q) = Ok [])
    by reflexivity.
  assert (Hacc : seed_accepted 42 = true) by reflexivity.
  destruct (proj1 (@empty_batch_is_an_index_error _ DemoEmpty.library "clip.mp4" "rain"
                     "music" 42 25 (9 # 2)%Q 8%Q world0 Hacc) Hg) as (Hr & _ & _ & Hs & _).
  repeat split; assumption.
Defined.

Lemma first_waveform_is_written_witness :
  generate (text_args world0 "rain on a window" "music" 42 25 (9 # 2)%Q 8%Q) =
    Ok [[42; 25; 352800]%Z] /\
  Forall (fun t => t = [tensor_cpu (tensor_float [42; 25; 352800]%Z)])
    (written_audio
       (events (text_to_audio "rain on a window" "music" 42 25 (9 # 2)%Q 8%Q world0))).
Proof.
  assert (Hg : generate (text_args world0 "rain on a window" "music" 42 25 (9 # 2)%Q 8%Q) =
               Ok [[42; 25; 352800]%Z]) by (vm_compute; reflexivity).
  split; [exact Hg|].
  exact (proj1 (@first_waveform_is_written _ Demo.library "clip.mp4" "rain on a window" "music" 42 25
                  (9 # 2)%Q 8%Q world0) _ _ Hg).
Defined.

Lemma output_dir_taken_by_a_file_witness :
  produced (events (handle (TextToAudio "rain" "music" 42 25 (9 # 2)%Q 8%Q) world_blocked)) =
    [Ok [[42; 25; 352800]%Z]] /\
  parts (output_dir world_blocked) <> [] /\
  fs world_blocked !! output_dir world_blocked = Some (File [0]%Z) /\
  result (handle (TextToAudio "rain" "music" 42 25 (9 # 2)%Q 8%Q) world_blocked) =
    Raise FileExistsError /\
  exists_ (fs world_blocked_above) (output_dir world_blocked_above) = false /\
  fs world_blocked_above !! Path_parent (output_dir world_blocked_above) =
    Some (File [0]%Z) /\
  result (handle (TextToAudio "rain" "music" 42 25 (9 # 2)%Q 8%Q) world_blocked_above) =
    Raise NotADirectoryError.
Proof.
  assert (Hg : produced (events (handle (TextToAudio "rain" "music" 42 25 (9 # 2)%Q 8%Q)
                                   world_blocked)) = [Ok [[42; 25; 352800]%Z]])
    by (vm_compute; reflexivity).
  assert (Hg' : produced (events (handle (TextToAudio "rain" "music" 42 25 (9 # 2)%Q 8%Q)
                                    world_blocked_above)) = [Ok [[42; 25; 352800]%Z]])
    by (vm_compute; reflexivity).
  assert (Hp : parts (output_dir world_blocked) <> []) by (vm_compute; discriminate).
  assert (Hf : fs world_blocked !! output_dir world_blocked = Some (File [0]%Z))
    by (vm_compute; reflexivity).
  assert (He : exists_ (fs world_blocked_above) (output_dir world_blocked_above) = false)
    by (vm_compute; reflexivity).
  assert (Hp' : parts (Path_parent (output_dir world_blocked_above)) <> [])
    by (vm_compute; discriminate).
  assert (Hf' : fs world_blocked_above !! Path_parent (output_dir world_blocked_above) =
                Some (File [0]%Z)) by (vm_compute; reflexivity).
  split; [exact Hg|]. split; [exact Hp|]. split; [exact Hf|].
  split; [exact (proj1 (proj1 (@output_dir_taken_by_a_file _ Demo.library _ _ _ _ [0]%Z Hg) Hp Hf))|].
  split; [exact He|]. split; [exact Hf'|].
  exact (proj1 (proj2 (@output_dir_taken_by_a_file _ Demo.library _ _ _ _ [0]%Z Hg') He Hp' Hf')).
Defined.

(** Two audio requests three seconds apart, and two in the same second. *)
Lemma artifact_paths_meet_in_the_same_second_witness :
  result (handle (TextToAudio "rain" "music" 42 25 (9 # 2)%Q 8%Q) world0) =
    Ok {| anchored := false; parts := ["output"; "gradio"; "20261103_090507.flac"] |} /\
  result (handle (TextToAudio "wind" "" 7 25 (9 # 2)%Q 8%Q) world1) =
    Ok {| anchored := false; parts := ["output"; "gradio"; "20261103_090510.flac"] |} /\
  output_dir world0 = output_dir world1 /\
  valid_datetime (datetime_now (now_reads world0)) = true /\
  valid_datetime (datetime_now (now_reads world1)) = true /\
  ({| anchored := false; parts := ["output"; "gradio"; "20261103_090507.flac"] |} =
   {| anchored := false; parts := ["output"; "gradio"; "20261103_090510.flac"] |} <->
   extension (TextToAudio "rain" "music" 42 25 (9 # 2)%Q 8%Q) =
     extension (TextToAudio "wind" "" 7 25 (9 # 2)%Q 8%Q) /\
   to_second (datetime_now (now_reads world0)) = to_second (datetime_now (now_reads world1))).
Proof.
  assert (H1 : result (handle (TextToAudio "rain" "music" 42 25 (9 # 2)%Q 8%Q) world0) =
    Ok {| anchored := false; parts := ["output"; "gradio"; "20261103_090507.flac"] |})
    by (vm_compute; reflexivity).
  assert (H2 : result (handle (TextToAudio "wind" "" 7 25 (9 # 2)%Q 8%Q) world1) =
    Ok {| anchored := false; parts := ["output"; "gradio"; "20261103_090510.flac"] |})
    by (vm_compute; reflexivity).
  assert (Hd : output_dir world0 = output_dir world1) by reflexivity.
  assert (V1 : valid_datetime (datetime_now (now_reads world0)) = true)
    by (vm_compute; reflexivity).
  assert (V2 : valid_datetime (datetime_now (now_reads world1)) = true)
    by (vm_compute; reflexivity).
  split; [exact H1|]. split; [exact H2|]. split; [exact Hd|].
  split; [exact V1|]. split; [exact V2|].
  exact (@artifact_paths_meet_in_the_same_second _ Demo.library _ _ _ _ _ _ H1 H2 Hd V1 V2).
Defined.

Lemma lengths_follow_the_configuration_witness :
  in_step world1 /\
  in_step (after [TextToAudio "rain" "music" 42 (-1) (9 # 2)%Q 8%Q;
                  VideoToAudio "missing.mp4" "rain" "music" (-1) 25 (9 # 2)%Q 8%Q;
                  VideoToAudio "clip.mp4" "rain" "music" 4 25 (9 # 2)%Q 8%Q] world1) /\
  assigned_durations
    (events (handle (TextToAudio "rain" "music" 42 25 (9 # 2)%Q 8%Q) world0)) <> [] /\
  in_step (after [] (final (handle (TextToAudio "rain" "music" 42 25 (9 # 2)%Q 8%Q) world0))).
Proof.
  assert (Hw : in_step world1) by (repeat split).
  assert (Ha : assigned_durations
    (events (handle (TextToAudio "rain" "music" 42 25 (9 # 2)%Q 8%Q) world0)) <> [])
    by (vm_compute; discriminate).
  split; [exact Hw|].
  split; [exact (proj1 (@lengths_follow_the_configuration _ Demo.library
                          (TextToAudio "rain" "music" 42 25 (9 # 2)%Q 8%Q) _ world1) Hw)|].
  split; [exact Ha|].
  exact (proj2 (@lengths_follow_the_configuration _ Demo.library _ [] world0) Ha).
Defined.

Lemma seeded_request_ignores_history_witness :
  (0 <= request_seed (VideoToAudio "clip.mp4" "rain" "music" 42 25 (9 # 2)%Q 8%Q))%Z /\
  load_video (fs (after [] world0)) "clip.mp4" 8%Q =
    load_video (fs (after [TextToAudio "wind" "" (-1) 25 (9 # 2)%Q 5%Q;
                           VideoToAudio "missing.mp4" "" "" 3 10 (9 # 2)%Q 2%Q] world0))
      "clip.mp4" 8%Q /\
  produced (events (handle (VideoToAudio "clip.mp4" "rain" "music" 42 25 (9 # 2)%Q 8%Q)
                      (after [] world0))) =
  produced (events (handle (VideoToAudio "clip.mp4" "rain" "music" 42 25 (9 # 2)%Q 8%Q)
                      (after [TextToAudio "wind" "" (-1) 25 (9 # 2)%Q 5%Q;
                              VideoToAudio "missing.mp4" "" "" 3 10 (9 # 2)%Q 2%Q] world0))).
Proof.
  assert (Hs : (0 <= request_seed (VideoToAudio "clip.mp4" "rain" "music" 42 25 (9 # 2)%Q
                                     8%Q))%Z) by (simpl; lia).
  assert (Hv : load_video (fs (after [] world0)) "clip.mp4" 8%Q =
    load_video (fs (after [TextToAudio "wind" "" (-1) 25 (9 # 2)%Q 5%Q;
                           VideoToAudio "missing.mp4" "" "" 3 10 (9 # 2)%Q 2%Q] world0))
      "clip.mp4" 8%Q) by (vm_compute; reflexivity).
  split; [exact Hs|]. split; [exact Hv|].
  exact (@seeded_request_ignores_history _ Demo.library
           (VideoToAudio "clip.mp4" "rain" "music" 42 25 (9 # 2)%Q 8%Q) [] _ world0 Hs Hv).
Defined.

Lemma negative_seed_successive_draws_witness :
  (-1 < 0)%Z /\
  rng <$> generate_calls
            (events (text_to_audio "rain" "music" (-1) 25 (9 # 2)%Q 8%Q
                       (final (text_to_audio "rain" "music" (-1) 25 (9 # 2)%Q 8%Q world0)))) =
    [{| gen_device := device; gen_state := seed_state device (entropy 1) |}].
Proof.
  assert (Hs : (-1 < 0)%Z) by lia.
  split; [exact Hs|].
  exact (proj2 (@negative_seed_successive_draws _ Demo.library "rain" "music" (-1) 25
                  (9 # 2)%Q 8%Q world0 Hs)).
Defined.


Lemma requests_run_on_the_loaded_model_witness :
  snd (loaded model0 disk0) =
    Ok {| model := model0;
          net := {| weights := 7%Z; latent_len := 345; clip_len := 64; sync_len := 192 |};
          feature_utils := 3%Z; output_dir := configured_output_dir; fs := disk0;
          entropy_reads := 0; time_reads := 0; now_reads := 0 |} /\
  weights (net (after [TextToAudio "rain" "music" 42 25 (9 # 2)%Q 8%Q;
                       VideoToAudio "clip.mp4" "rain" "music" (-1) 25 (9 # 2)%Q 8%Q]
                 {| model := model0;
                    net := {| weights := 7%Z; latent_len := 345; clip_len := 64;
                              sync_len := 192 |};
                    feature_utils := 3%Z; output_dir := configured_output_dir; fs := disk0;
                    entropy_reads := 0; time_reads := 0; now_reads := 0 |})) = 7%Z.
Proof.
  assert (Hl : snd (loaded model0 disk0) =
    Ok {| model := model0;
          net := {| weights := 7%Z; latent_len := 345; clip_len := 64; sync_len := 192 |};
          feature_utils := 3%Z; output_dir := configured_output_dir; fs := disk0;
          entropy_reads := 0; time_reads := 0; now_reads := 0 |})
    by reflexivity.
  split; [exact Hl|].
  destruct (@requests_run_on_the_loaded_model _ Demo.library DemoStart.loader model0 disk0 _
              [@TextToAudio Demo.carrier "rain" "music" 42 25 (9 # 2)%Q 8%Q;
               @VideoToAudio Demo.carrier "clip.mp4" "rain" "music" (-1) 25 (9 # 2)%Q 8%Q]
              Hl)
    as (n & u & Hg & _ & _ & _ & Hw & _).
  rewrite Hw.
  assert (Hg' : snd (get_model model0 disk0) =
    Ok ({| weights := 7%Z; latent_len := 345; clip_len := 64; sync_len := 192 |}, 3%Z,
        seq_cfg model0)) by reflexivity.
  rewrite Hg' in Hg. injection Hg as <- _. reflexivity.
Defined.
